(** * Disaster-signal classification and alert aggregation

    A shallow embedding of [src/lib/socialMediaAnalysis.ts] (the text
    classifier and the alert aggregator) and of the satellite image
    analyzer, together with the properties the specification states
    about them.

    Modelling conventions.
    - A JavaScript [number] is an exact rational ([Q]); equalities between
      computed numbers are stated with [==].  Counts ([.length]) are [nat].
      The image classifier is given a second time over binary64 floats
      ([Binary64]), to evaluate it as the runtime does.
    - A JavaScript string is a [string] of 8-bit characters; [toLowerCase]
      and [toUpperCase] act on the ASCII letters.
    - [Math.random()], [Date.now()] and [new Date()] read an ambient
      [World]: code that calls them is written in the state monad [M].
    - The [sentiment] package is not part of the repository: its [analyze]
      function is a Section variable of [SocialMediaAnalyzer].
    - A JavaScript [Map] is an association list in insertion order, which is
      the order [Map.prototype.values] iterates in. *)

From Stdlib Require Import QArith Qround Qminmax Qabs Lqa ZArith Lia.
From Stdlib Require Import List String Ascii Bool Arith Permutation Sorted.
From Stdlib Require Floats.
Import ListNotations.

(* ================================================================== *)
(** * Host functions of the JavaScript runtime *)
(* ================================================================== *)

Module Js.

Local Open Scope string_scope.

(** ** Numbers *)

Definition ltb (x y : Q) : bool :=
  match (x ?= y)%Q with Lt => true | _ => false end.

Definition leb (x y : Q) : bool := Qle_bool x y.

(** [Math.ceil] and [Math.floor], as numbers again. *)
Definition ceil (x : Q) : Q := inject_Z (Qceiling x).
Definition floor (x : Q) : Q := inject_Z (Qfloor x).

Definition ofNat (n : nat) : Q := inject_Z (Z.of_nat n).

(** ** Strings *)

Definition isUpper (c : ascii) : bool :=
  let n := nat_of_ascii c in (65 <=? n)%nat && (n <=? 90)%nat.

Definition isLower (c : ascii) : bool :=
  let n := nat_of_ascii c in (97 <=? n)%nat && (n <=? 122)%nat.

Definition isDigit (c : ascii) : bool :=
  let n := nat_of_ascii c in (48 <=? n)%nat && (n <=? 57)%nat.

Definition lowerChar (c : ascii) : ascii :=
  if isUpper c then ascii_of_nat (nat_of_ascii c + 32) else c.

Definition upperChar (c : ascii) : ascii :=
  if isLower c then ascii_of_nat (nat_of_ascii c - 32) else c.

Fixpoint toLowerCase (s : string) : string :=
  match s with
  | EmptyString => EmptyString
  | String c s' => String (lowerChar c) (toLowerCase s')
  end.

Fixpoint toUpperCase (s : string) : string :=
  match s with
  | EmptyString => EmptyString
  | String c s' => String (upperChar c) (toUpperCase s')
  end.

(** [s.includes(k)]: [k] occurs in [s] as a substring. *)
Fixpoint includes (s k : string) : bool :=
  String.prefix k s ||
  match s with
  | EmptyString => false
  | String _ s' => includes s' k
  end.

(** [s.charAt(0).toUpperCase() + s.slice(1)]. *)
Definition capitalize (s : string) : string :=
  match s with
  | EmptyString => EmptyString
  | String c s' => String (upperChar c) s'
  end.

(** The character classes [\w] and [\s] of a regular expression. *)
Definition isWordChar (c : ascii) : bool :=
  isUpper c || isLower c || isDigit c || Ascii.eqb c "_"%char.

Definition isSpace (c : ascii) : bool :=
  let n := nat_of_ascii c in
  (n =? 32)%nat || ((9 <=? n)%nat && (n <=? 13)%nat).

(** [s.replace(/[^\w\s]/g, ' ')]. *)
Fixpoint blankPunctuation (s : string) : string :=
  match s with
  | EmptyString => EmptyString
  | String c s' =>
      String (if isWordChar c || isSpace c then c else " "%char)
             (blankPunctuation s')
  end.

(** [s.split(/\s+/)]: the pieces between maximal runs of white space;
    [cur] is the piece being read. *)
Fixpoint splitSpacesFrom (cur : string) (inGap : bool) (s : string)
  : list string :=
  match s with
  | EmptyString => [cur]
  | String c s' =>
      if isSpace c
      then if inGap then splitSpacesFrom cur true s'
           else cur :: splitSpacesFrom EmptyString true s'
      else splitSpacesFrom (cur ++ String c EmptyString) false s'
  end.

Definition splitSpaces (s : string) : list string :=
  splitSpacesFrom EmptyString false s.

(** The longest prefix of [s] made of ASCII letters: what [([a-z]+)]
    captures under the [i] flag. *)
Fixpoint takeLetters (s : string) : string :=
  match s with
  | EmptyString => EmptyString
  | String c s' =>
      if isLower c || isUpper c then String c (takeLetters s')
      else EmptyString
  end.

Fixpoint dropChars (n : nat) (s : string) : string :=
  match n, s with
  | O, _ => s
  | S n', String _ s' => dropChars n' s'
  | S _, EmptyString => EmptyString
  end.

(** [s.match(/<word> ([a-z]+)/i)]: the capture group of the leftmost
    match, if there is one.  [word] is given in lower case. *)
Fixpoint matchWordThenLetters (word : string) (s : string)
  : option string :=
  let here :=
    if String.prefix (word ++ " ") (toLowerCase s)
    then
      match takeLetters (dropChars (S (String.length word)) s) with
      | EmptyString => None
      | w => Some w
      end
    else None in
  match here with
  | Some w => Some w
  | None =>
      match s with
      | EmptyString => None
      | String _ s' => matchWordThenLetters word s'
      end
  end.

(** The names every object inherits from [Object.prototype]; each of
    them reads as a truthy value on a plain object. *)
Definition objectPrototypeKeys : list string :=
  [ "constructor"; "__defineGetter__"; "__defineSetter__";
    "hasOwnProperty"; "__lookupGetter__"; "__lookupSetter__";
    "isPrototypeOf"; "propertyIsEnumerable"; "toString"; "valueOf";
    "__proto__"; "toLocaleString" ].

Definition inList (k : string) (l : list string) : bool :=
  existsb (String.eqb k) l.

End Js.

(* ================================================================== *)
(** * The ambient world: random numbers and the clock *)
(* ================================================================== *)

Record World := mkWorld {
  randoms : nat -> Q;   (** successive results of [Math.random()] *)
  randPos : nat;
  clock : nat -> Z;     (** successive readings of the clock, in ms *)
  clockPos : nat
}.

Definition M (A : Type) : Type := World -> A * World.

Definition ret {A} (x : A) : M A := fun w => (x, w).

Definition bind {A B} (c : M A) (f : A -> M B) : M B :=
  fun w => let (x, w') := c w in f x w'.

Notation "x <- c ;; k" := (bind c (fun x => k))
  (at level 61, c at next level, right associativity).

Definition mathRandom : M Q :=
  fun w => (randoms w (randPos w),
            mkWorld (randoms w) (S (randPos w)) (clock w) (clockPos w)).

Definition dateNow : M Z :=
  fun w => (clock w (clockPos w),
            mkWorld (randoms w) (randPos w) (clock w) (S (clockPos w))).

(** Every draw of [Math.random()] lies in [[0,1)]. *)
Definition unitDraws (w : World) : Prop :=
  forall n, (0 <= randoms w n /\ randoms w n < 1)%Q.

(* ================================================================== *)
(** * Data model *)
(* ================================================================== *)

Inductive Platform := twitter | facebook | instagram | reddit.

(** [DisasterAlert['disasterType']], in the order of the keyword table. *)
Inductive DisasterType :=
  flood | fire | earthquake | hurricane | landslide | cyclone | tsunami.

Inductive UrgencyLevel := critical | high | medium | low.

(** What a [coordinates] field can hold: a latitude and a longitude, or,
    when the gazetteer object was indexed with a name it inherits from
    [Object.prototype], that inherited member. *)
Inductive Coordinates :=
| LatLng (lat lng : Q)
| PrototypeMember (name : string).

Module SocialMediaPost.
Record t := mk {
  id : string;
  text : string;
  author : string;
  location : option string;
  coordinates : option (Q * Q);
  timestamp : string;
  platform : Platform
}.
End SocialMediaPost.

(** The two varying parts of the id
    [`alert-${Date.now()}-${Math.random().toString(36).substr(2, 9)}`]. *)
Record AlertId := mkAlertId { idTime : Z; idDraw : Q }.

Module DisasterAlert.
Record t := mk {
  id : AlertId;
  disasterType : DisasterType;
  location : string;
  coordinates : Coordinates;
  confidence : Q;
  severity : Q;
  affectedPopulation : Q;
  reportCount : nat;
  sentimentScore : Q;
  urgencyLevel : UrgencyLevel;
  keywords : list string;
  timestamp : Z;
  sources : list SocialMediaPost.t
}.
End DisasterAlert.

(** The object [analyzePost] returns. *)
Module PostAnalysis.
Record t := mk {
  isDisasterRelated : bool;
  disasterType : option DisasterType;
  location : string;
  coordinates : Coordinates;
  confidence : Q;
  severity : Q;
  sentimentScore : Q;
  urgencyLevel : UrgencyLevel;
  keywords : list string
}.
End PostAnalysis.

Definition typeName (d : DisasterType) : string :=
  match d with
  | flood => "flood" | fire => "fire" | earthquake => "earthquake"
  | hurricane => "hurricane" | landslide => "landslide"
  | cyclone => "cyclone" | tsunami => "tsunami"
  end.

Definition UrgencyLevel_eqb (a b : UrgencyLevel) : bool :=
  match a, b with
  | critical, critical | high, high | medium, medium | low, low => true
  | _, _ => false
  end.

(** [function tokenize(text)]. *)
Definition tokenize (text : string) : list string :=
  filter (fun word => (0 <? String.length word)%nat)
         (Js.splitSpaces (Js.blankPunctuation (Js.toLowerCase text))).

(* ================================================================== *)
(** * [class SocialMediaAnalyzer] *)
(* ================================================================== *)

Module SocialMediaAnalyzer.

Local Open Scope string_scope.
Local Open Scope Q_scope.

(** [Object.entries(this.disasterKeywords)], in insertion order. *)
Definition disasterKeywords : list (DisasterType * list string) :=
  [ (flood, ["flood"; "flooding"; "water rising"; "inundation";
             "waterlogged"; "deluge"; "submerg"]);
    (fire, ["fire"; "blaze"; "burning"; "flames"; "smoke"; "wildfire";
            "forest fire"; "arson"]);
    (earthquake, ["earthquake"; "tremor"; "seismic"; "quake"; "shaking";
                  "aftershock"; "epicenter"]);
    (hurricane, ["hurricane"; "cyclone"; "typhoon"; "storm"; "wind";
                 "gale"; "tempest"]);
    (landslide, ["landslide"; "mudslide"; "rockslide"; "slope failure";
                 "debris flow"; "avalanche"]);
    (cyclone, ["cyclone"; "tropical storm"; "depression"; "low pressure";
               "eye of storm"]);
    (tsunami, ["tsunami"; "tidal wave"; "seismic sea wave"; "ocean wave"]) ].

Definition urgencyKeywords : list string :=
  [ "urgent"; "emergency"; "help"; "sos"; "critical"; "immediate";
    "rescue"; "trapped"; "danger"; "life threatening"; "evacuate";
    "stranded" ].

Definition indianCities : list (string * (Q * Q)) :=
  [ ("mumbai", (19.0760, 72.8777));
    ("delhi", (28.7041, 77.1025));
    ("bangalore", (12.9716, 77.5946));
    ("hyderabad", (17.3850, 78.4867));
    ("chennai", (13.0827, 80.2707));
    ("kolkata", (22.5726, 88.3639));
    ("pune", (18.5204, 73.8567));
    ("ahmedabad", (23.0225, 72.5714));
    ("kerala", (10.8505, 76.2711));
    ("wayanad", (11.6854, 76.1320));
    ("uttarakhand", (30.0668, 79.0193));
    ("assam", (26.2006, 92.9376));
    ("odisha", (20.9517, 85.0985));
    ("bihar", (25.0961, 85.3131));
    ("rajasthan", (27.0238, 74.2179));
    ("kashmir", (34.0837, 74.7973)) ].

(** [this.indianCities[name]]: an own entry, else an inherited member of
    [Object.prototype], else [undefined]. *)
Definition cityEntry (name : string) : option Coordinates :=
  match find (fun e => String.eqb (fst e) name) indianCities with
  | Some (_, (lat, lng)) => Some (LatLng lat lng)
  | None =>
      if Js.inList name Js.objectPrototypeKeys
      then Some (PrototypeMember name) else None
  end.

(** [keywords.filter(keyword => text.includes(keyword))]. *)
Definition matchesIn (text : string) (keywords : list string)
  : list string :=
  filter (fun keyword => Js.includes text keyword) keywords.

(** The state of the category loop of [analyzePost]:
    [disasterType], [maxMatches] and [matchedKeywords]. *)
Definition TypeScan : Type := option DisasterType * nat * list string.

(** One iteration of
    [for (const [type, keywords] of Object.entries(...))]. *)
Definition scanCategory (text : string) (st : TypeScan)
           (entry : DisasterType * list string) : TypeScan :=
  let '(disasterType, maxMatches, matchedKeywords) := st in
  let matches := matchesIn text (snd entry) in
  if (maxMatches <? List.length matches)%nat
  then (Some (fst entry), List.length matches,
        (matchedKeywords ++ matches)%list)
  else st.

Definition detectType (text : string) : TypeScan :=
  fold_left (scanCategory text) disasterKeywords (None, O, []).

(** [extractLocation]; an empty [providedLocation] is falsy. *)
Definition locationPatterns : list string := ["in"; "at"; "from"; "near"].

Fixpoint firstCityIn (text : string) (cities : list string)
  : option string :=
  match cities with
  | [] => None
  | city :: rest =>
      if Js.includes text city then Some (Js.capitalize city)
      else firstCityIn text rest
  end.

Fixpoint firstPatternIn (text : string) (patterns : list string)
  : option string :=
  match patterns with
  | [] => None
  | pattern :: rest =>
      match Js.matchWordThenLetters pattern text with
      | Some w => Some (Js.capitalize w)
      | None => firstPatternIn text rest
      end
  end.

Definition extractLocation (text : string)
           (providedLocation : option string) : string :=
  match providedLocation with
  | Some (String c l) => String c l
  | _ =>
      match firstCityIn text (map fst indianCities) with
      | Some city => city
      | None =>
          match firstPatternIn text locationPatterns with
          | Some w => w
          | None => "Unknown Location"
          end
      end
  end.

(** [getCoordinates]: the gazetteer entry when the lowercased name has
    one, else two draws of [Math.random()]. *)
Definition getCoordinates (location : string) : M Coordinates :=
  let locationLower := Js.toLowerCase location in
  match cityEntry locationLower with
  | Some c => ret c
  | None =>
      u1 <- mathRandom ;;
      u2 <- mathRandom ;;
      ret (LatLng (20.5937 + (u1 - 0.5) * 15) (78.9629 + (u2 - 0.5) * 15))
  end.

Definition calculateConfidence (keywordMatches urgencyCount : nat)
           (sentimentScore : Q) (textLength : nat) : Q :=
  let confidence := 0 in
  let confidence :=
    confidence + Qmin 0.4 (Js.ofNat keywordMatches * 0.1) in
  let confidence :=
    confidence + Qmin 0.3 (Js.ofNat urgencyCount * 0.1) in
  let confidence :=
    if Js.ltb sentimentScore 0
    then confidence + Qmin 0.2 (Qabs sentimentScore * 0.02)
    else confidence in
  let confidence :=
    if (10 <=? textLength)%nat && (textLength <=? 100)%nat
    then confidence + 0.1
    else confidence in
  Qmin 1 confidence.

Definition calculateInitialSeverity (urgencyLevel : UrgencyLevel)
           (sentimentScore : Q) (keywordMatches : nat) : Q :=
  let severity :=
    match urgencyLevel with
    | critical => 5
    | high => 4
    | medium => 3
    | low => 2
    end in
  let severity :=
    if Js.ltb sentimentScore (-5) then Qmin 5 (severity + 1)
    else severity in
  let severity :=
    if (3 <=? keywordMatches)%nat then Qmin 5 (severity + 1)
    else severity in
  severity.

Definition calculateSeverity (alert : DisasterAlert.t) : Q :=
  let severity := DisasterAlert.severity alert in
  let severity :=
    if (10 <=? DisasterAlert.reportCount alert)%nat
    then Qmin 5 (severity + 1)
    else if (5 <=? DisasterAlert.reportCount alert)%nat
         then Qmin 5 (severity + 0.5)
         else severity in
  let severity :=
    if Js.ltb (DisasterAlert.sentimentScore alert) (-10)
    then Qmin 5 (severity + 1)
    else severity in
  Js.ceil severity.

Definition majorCities : list string :=
  ["mumbai"; "delhi"; "bangalore"; "hyderabad"; "chennai"; "kolkata"].

Definition estimateAffectedPopulation (location : string) : M Q :=
  let locationLower := Js.toLowerCase location in
  if existsb (fun city => Js.includes locationLower city) majorCities
  then u <- mathRandom ;; ret (Js.floor (u * 50000) + 10000)
  else u <- mathRandom ;; ret (Js.floor (u * 10000) + 1000).


Section WithSentiment.

(** [text => sentiment.analyze(text).score]. *)
Variable sentimentScoreOf : string -> Q.

Definition urgencyOf (urgencyCount : nat) : UrgencyLevel :=
  if (3 <=? urgencyCount)%nat then critical
  else if (2 <=? urgencyCount)%nat then high
  else if (1 <=? urgencyCount)%nat then medium
  else low.

Definition analyzePost (post : SocialMediaPost.t) : M PostAnalysis.t :=
  let text := Js.toLowerCase (SocialMediaPost.text post) in
  let tokens := tokenize text in
  let '(disasterType, maxMatches, matchedKeywords) := detectType text in
  let location :=
    extractLocation text (SocialMediaPost.location post) in
  coordinates <- getCoordinates location ;;
  let sentimentScore := sentimentScoreOf text in
  let urgencyCount := List.length (matchesIn text urgencyKeywords) in
  let urgencyLevel := urgencyOf urgencyCount in
  let confidence :=
    calculateConfidence maxMatches urgencyCount sentimentScore
                        (List.length tokens) in
  let severity :=
    calculateInitialSeverity urgencyLevel sentimentScore maxMatches in
  ret (PostAnalysis.mk
         (match disasterType with Some _ => true | None => false end
          && (0 <? maxMatches)%nat)
         disasterType location coordinates confidence severity
         sentimentScore urgencyLevel matchedKeywords).

(** The [Map<string, DisasterAlert>] of [analyzePosts]. *)
Definition AlertMap : Type := list (string * DisasterAlert.t).

Definition get (key : string) (alerts : AlertMap)
  : option DisasterAlert.t :=
  option_map snd (find (fun e => String.eqb (fst e) key) alerts).

(** [alert.severity = severity]. *)
Definition setSeverity (alert : DisasterAlert.t) (severity : Q)
  : DisasterAlert.t :=
  DisasterAlert.mk
    (DisasterAlert.id alert)
    (DisasterAlert.disasterType alert)
    (DisasterAlert.location alert)
    (DisasterAlert.coordinates alert)
    (DisasterAlert.confidence alert)
    severity
    (DisasterAlert.affectedPopulation alert)
    (DisasterAlert.reportCount alert)
    (DisasterAlert.sentimentScore alert)
    (DisasterAlert.urgencyLevel alert)
    (DisasterAlert.keywords alert)
    (DisasterAlert.timestamp alert)
    (DisasterAlert.sources alert).

(** The body of the [if (alerts.has(key))] branch: the update of
    [existing] in place. *)
Definition merge (existing : DisasterAlert.t) (post : SocialMediaPost.t)
           (analysis : PostAnalysis.t) : DisasterAlert.t :=
  let counted :=
    DisasterAlert.mk
      (DisasterAlert.id existing)
      (DisasterAlert.disasterType existing)
      (DisasterAlert.location existing)
      (DisasterAlert.coordinates existing)
      (Qmin 1 (DisasterAlert.confidence existing + 0.05))
      (DisasterAlert.severity existing)
      (DisasterAlert.affectedPopulation existing)
      (S (DisasterAlert.reportCount existing))
      ((DisasterAlert.sentimentScore existing
        + PostAnalysis.sentimentScore analysis) / 2)
      (DisasterAlert.urgencyLevel existing)
      (DisasterAlert.keywords existing)
      (DisasterAlert.timestamp existing)
      (DisasterAlert.sources existing ++ [post])%list in
  setSeverity counted (calculateSeverity counted).

(** The alert object stored at [key] is updated where it stands. *)
Fixpoint update (key : string) (f : DisasterAlert.t -> DisasterAlert.t)
         (alerts : AlertMap) : AlertMap :=
  match alerts with
  | [] => []
  | (k, a) :: rest =>
      if String.eqb k key then (k, f a) :: rest
      else (k, a) :: update key f rest
  end.

(** The [else] branch: the new alert, its fields evaluated in the
    order of the object literal. *)
Definition create (post : SocialMediaPost.t) (analysis : PostAnalysis.t)
           (disasterType : DisasterType) : M DisasterAlert.t :=
  now <- dateNow ;;
  draw <- mathRandom ;;
  affectedPopulation <-
    estimateAffectedPopulation (PostAnalysis.location analysis) ;;
  timestamp <- dateNow ;;
  ret (DisasterAlert.mk
         (mkAlertId now draw)
         disasterType
         (PostAnalysis.location analysis)
         (PostAnalysis.coordinates analysis)
         (PostAnalysis.confidence analysis)
         (PostAnalysis.severity analysis)
         affectedPopulation
         1%nat
         (PostAnalysis.sentimentScore analysis)
         (PostAnalysis.urgencyLevel analysis)
         (PostAnalysis.keywords analysis)
         timestamp
         [post]).

(** [`${analysis.disasterType}-${analysis.location}`]. *)
Definition keyOf (disasterType : DisasterType) (location : string)
  : string :=
  typeName disasterType ++ "-" ++ location.

(** One iteration of [for (const post of posts)]; a disaster-related
    analysis has a [disasterType] that is not [null]. *)
Definition processPost (alerts : AlertMap) (post : SocialMediaPost.t)
  : M AlertMap :=
  analysis <- analyzePost post ;;
  match PostAnalysis.isDisasterRelated analysis,
        PostAnalysis.disasterType analysis with
  | true, Some disasterType =>
      let key := keyOf disasterType (PostAnalysis.location analysis) in
      match get key alerts with
      | Some _ =>
          ret (update key (fun existing => merge existing post analysis)
                      alerts)
      | None =>
          alert <- create post analysis disasterType ;;
          ret (alerts ++ [(key, alert)])%list
      end
  | _, _ => ret alerts
  end.

Fixpoint processPosts (alerts : AlertMap) (posts : list SocialMediaPost.t)
  : M AlertMap :=
  match posts with
  | [] => ret alerts
  | post :: rest =>
      alerts' <- processPost alerts post ;;
      processPosts alerts' rest
  end.

(** [alert => alert.reportCount >= 2 || alert.urgencyLevel === 'critical']. *)
Definition published (alert : DisasterAlert.t) : bool :=
  (2 <=? DisasterAlert.reportCount alert)%nat
  || UrgencyLevel_eqb (DisasterAlert.urgencyLevel alert) critical.

(** [(a, b) => b.confidence - a.confidence]. *)
Definition byConfidence (a b : DisasterAlert.t) : Q :=
  DisasterAlert.confidence b - DisasterAlert.confidence a.

(** [Array.prototype.sort(compare)] is a stable sort: [a] is moved
    behind [b] only when [compare(a, b) > 0]. *)
Fixpoint sortInsert (compare : DisasterAlert.t -> DisasterAlert.t -> Q)
         (a : DisasterAlert.t) (sorted : list DisasterAlert.t)
  : list DisasterAlert.t :=
  match sorted with
  | [] => [a]
  | b :: rest =>
      if Js.ltb 0 (compare a b) then b :: sortInsert compare a rest
      else a :: b :: rest
  end.

Fixpoint sort (compare : DisasterAlert.t -> DisasterAlert.t -> Q)
         (l : list DisasterAlert.t) : list DisasterAlert.t :=
  match l with
  | [] => []
  | a :: rest => sortInsert compare a (sort compare rest)
  end.

Definition values (alerts : AlertMap) : list DisasterAlert.t :=
  map snd alerts.

Definition analyzePosts (posts : list SocialMediaPost.t)
  : M (list DisasterAlert.t) :=
  alerts <- processPosts [] posts ;;
  ret (sort byConfidence (filter published (values alerts))).

End WithSentiment.

End SocialMediaAnalyzer.

(* ================================================================== *)
(** * [class SatelliteImageAnalyzer] *)
(* ================================================================== *)

Module SatelliteDetection.

(** [SatelliteDetection['disasterType']]. *)
Inductive kind := flood | fire | earthquake | hurricane | landslide | none.

Record analysis := mkAnalysis {
  vegetationIndex : Q;
  waterDetection : Q;
  buildingDamage : Q;
  fireIntensity : Q
}.

Record t := mk {
  disasterType : kind;
  confidence : Q;
  affectedArea : Q;
  severity : Q;
  coordinates : Q * Q;
  timestamp : Z;
  analysisOf : analysis
}.

Definition isNone (k : kind) : bool :=
  match k with none => true | _ => false end.

End SatelliteDetection.

Module SatelliteImageAnalyzer.

Import SatelliteDetection.
Local Open Scope Q_scope.

(** The loop [for (let i = 0; i < data.length; i += 4)] over the RGBA
    bytes of the canvas, whose number is a multiple of four. *)
Fixpoint sumChannels (data : list Z) (acc : Q * Q * Q) : Q * Q * Q :=
  match data with
  | r0 :: g0 :: b0 :: _ :: rest =>
      let '(r, g, b) := acc in
      sumChannels rest (r + inject_Z r0, g + inject_Z g0, b + inject_Z b0)
  | _ => acc
  end.

(** The channel means, normalised to [[0,1]]. *)
Definition meanChannels (data : list Z) : Q * Q * Q :=
  let '(r, g, b) := sumChannels data (0, 0, 0) in
  let pixels := Js.ofNat (List.length data) / 4 in
  (r / pixels / 255, g / pixels / 255, b / pixels / 255).

(** The rule cascade: [disasterType] and [confidence]. *)
Definition classify (r g b : Q) : kind * Q :=
  if Js.ltb r b && Js.ltb g b && Js.ltb 0.4 b
  then (flood, Qmin 0.95 (0.5 + (b - Qmax r g) * 2))
  else if Js.ltb g r && Js.ltb b r && Js.ltb 0.5 r
  then (fire, Qmin 0.95 (0.5 + (r - Qmax g b) * 1.5))
  else if Js.ltb 0.6 r && Js.ltb 0.6 g && Js.ltb 0.6 b
  then (hurricane, Qmin 0.9 (0.6 + (Qmin r (Qmin g b) - 0.6) * 2))
  else if Js.ltb 0.4 r && Js.ltb 0.3 g && Js.ltb b 0.3 && Js.ltb b r
  then (landslide, Qmin 0.85 (0.5 + ((r + g) / 2 - b) * 1.2))
  else if Js.ltb (Qabs (r - g)) 0.1 && Js.ltb (Qabs (g - b)) 0.1
          && Js.ltb r 0.5
  then (earthquake, 0.7)
  else if Js.ltb r g && Js.ltb b g
  then (none, Qmin 0.9 (0.5 + (g - Qmax r b) * 1.5))
  else (none, 0.6).

Definition metrics (r g b : Q) : analysis :=
  mkAnalysis
    (Qmax 0 (Qmin 1 (g - ((r + b) / 2))))
    (Qmax 0 (Qmin 1 (b - ((r + g) / 2) + 0.3)))
    (Qmax 0 (Qmin 1 ((r - g) * 1.5)))
    (Qmax 0 (Qmin 1 (r * 0.7 + (1 - b) * 0.3))).

Definition estimateAffectedArea (a : analysis) (type : kind) : Q :=
  let baseArea := 10 in
  match type with
  | flood => baseArea * (1 + waterDetection a * 50)
  | fire => baseArea * (1 + fireIntensity a * 30)
  | earthquake => baseArea * (1 + buildingDamage a * 40)
  | hurricane => baseArea * (1 + (waterDetection a + buildingDamage a) * 20)
  | landslide => baseArea * (1 + buildingDamage a * 25)
  | none => 0
  end.

Definition calculateSeverity (confidence : Q) (a : analysis) (type : kind)
  : Q :=
  if isNone type then 0
  else
    let severityScore := confidence in
    let severityScore :=
      match type with
      | flood => severityScore + waterDetection a * 0.3
      | fire => severityScore + fireIntensity a * 0.4
      | earthquake => severityScore + buildingDamage a * 0.5
      | hurricane =>
          severityScore + (waterDetection a + buildingDamage a) * 0.2
      | landslide => severityScore + buildingDamage a * 0.3
      | none => severityScore
      end in
    Qmin 5 (Qmax 1 (Js.ceil (severityScore * 5))).

(** [analyzeImage], from the pixel data [ctx.getImageData] returns. *)
Definition analyzeImage (data : list Z) : M SatelliteDetection.t :=
  let '(r, g, b) := meanChannels data in
  let '(disasterType, confidence) := classify r g b in
  let a := metrics r g b in
  let affectedArea := estimateAffectedArea a disasterType in
  let severity := calculateSeverity confidence a disasterType in
  u1 <- mathRandom ;;
  u2 <- mathRandom ;;
  timestamp <- dateNow ;;
  ret (SatelliteDetection.mk disasterType confidence affectedArea severity
         (20.5937 + (u1 - 0.5) * 10, 78.9629 + (u2 - 0.5) * 10)
         timestamp a).

(** The test of [analyzeSatelliteImage] in [DisasterDetection.tsx]:
    [result.disasterType !== 'none' && result.confidence > 0.5]. *)
Definition createsDisaster (result : SatelliteDetection.t) : bool :=
  negb (isNone (SatelliteDetection.disasterType result))
  && Js.ltb 0.5 (SatelliteDetection.confidence result).

End SatelliteImageAnalyzer.

(** ** The image classifier in binary64 arithmetic

    The same code over the floating-point numbers of the runtime; [min] and
    [max] are [Math.min] and [Math.max] on numbers that are not NaN. *)

Module Binary64.

Import Floats.
Import SatelliteDetection.
Local Open Scope float_scope.
#[local] Set Warnings "-inexact-float".

Definition ofInt (z : Z) : float := PrimFloat.of_uint63 (Uint63.of_Z z).

Definition min (a b : float) : float := if a <? b then a else b.
Definition max (a b : float) : float := if a <? b then b else a.

Record analysis := mkAnalysis {
  vegetationIndex : float;
  waterDetection : float;
  buildingDamage : float;
  fireIntensity : float
}.

Fixpoint sumChannels (data : list Z) (acc : float * float * float)
  : float * float * float :=
  match data with
  | r0 :: g0 :: b0 :: _ :: rest =>
      let '(r, g, b) := acc in
      sumChannels rest (r + ofInt r0, g + ofInt g0, b + ofInt b0)
  | _ => acc
  end.

Definition meanChannels (data : list Z) : float * float * float :=
  let '(r, g, b) := sumChannels data (0, 0, 0) in
  let pixels := ofInt (Z.of_nat (List.length data)) / 4 in
  (r / pixels / 255, g / pixels / 255, b / pixels / 255).

Definition classify (r g b : float) : kind * float :=
  if (r <? b) && (g <? b) && (0.4 <? b)
  then (flood, min 0.95 (0.5 + (b - max r g) * 2))
  else if (g <? r) && (b <? r) && (0.5 <? r)
  then (fire, min 0.95 (0.5 + (r - max g b) * 1.5))
  else if (0.6 <? r) && (0.6 <? g) && (0.6 <? b)
  then (hurricane, min 0.9 (0.6 + (min r (min g b) - 0.6) * 2))
  else if (0.4 <? r) && (0.3 <? g) && (b <? 0.3) && (b <? r)
  then (landslide, min 0.85 (0.5 + ((r + g) / 2 - b) * 1.2))
  else if (abs (r - g) <? 0.1) && (abs (g - b) <? 0.1) && (r <? 0.5)
  then (earthquake, 0.7)
  else if (r <? g) && (b <? g)
  then (none, min 0.9 (0.5 + (g - max r b) * 1.5))
  else (none, 0.6).

Definition metrics (r g b : float) : analysis :=
  mkAnalysis
    (max 0 (min 1 (g - ((r + b) / 2))))
    (max 0 (min 1 (b - ((r + g) / 2) + 0.3)))
    (max 0 (min 1 ((r - g) * 1.5)))
    (max 0 (min 1 (r * 0.7 + (1 - b) * 0.3))).

Definition estimateAffectedArea (a : analysis) (type : kind) : float :=
  let baseArea := 10 in
  match type with
  | flood => baseArea * (1 + waterDetection a * 50)
  | fire => baseArea * (1 + fireIntensity a * 30)
  | earthquake => baseArea * (1 + buildingDamage a * 40)
  | hurricane => baseArea * (1 + (waterDetection a + buildingDamage a) * 20)
  | landslide => baseArea * (1 + buildingDamage a * 25)
  | none => 0
  end.

(** The decimal constants of the scenario, as the runtime reads them. *)
Definition d0_2 : float := 0.2.
Definition d0_6 : float := 0.6.
Definition d0_7 : float := 0.7.
Definition d0_95 : float := 0.95.

End Binary64.

(* ================================================================== *)
(** * The specification's formulas, as it words them *)
(* ================================================================== *)

Module Specified.

Local Open Scope Q_scope.

Definition clamp01 (x : Q) : Q := Qmax 0 (Qmin 1 x).

(** Section 4.1: the confidence of a text signal. *)
Definition confidence (keywordMatches urgencyHits : nat) (sentiment : Q)
           (tokenCount : nat) : Q :=
  clamp01
    (0.1 * Js.ofNat (Nat.min 4 keywordMatches)
     + 0.1 * Js.ofNat (Nat.min 3 urgencyHits)
     + (if Js.ltb sentiment 0 then Qmin 0.2 (Qabs sentiment * 0.02) else 0)
     + (if (10 <=? tokenCount)%nat && (tokenCount <=? 100)%nat
        then 0.1 else 0)).

(** A severity level: one of 1, 2, 3, 4, 5. *)
Definition severityLevel (q : Q) : Prop :=
  exists n : Z, (1 <= n <= 5)%Z /\ q == inject_Z n.

End Specified.

(* ================================================================== *)
(** * Notions the statements are written with *)
(* ================================================================== *)




(** The signal key of a post: the disaster type and the location its
    analysis carries when it is disaster-related. *)
Definition signalOf (post : SocialMediaPost.t)
  : option (DisasterType * string) :=
  let text := Js.toLowerCase (SocialMediaPost.text post) in
  match SocialMediaAnalyzer.detectType text with
  | (Some disasterType, maxMatches, _) =>
      if (0 <? maxMatches)%nat
      then Some (disasterType,
                 SocialMediaAnalyzer.extractLocation
                   text (SocialMediaPost.location post))
      else None
  | (None, _, _) => None
  end.

Definition DisasterType_eqb (a b : DisasterType) : bool :=
  String.eqb (typeName a) (typeName b).

(** The post carries the signal key [(disasterType, location)]. *)
Definition hasSignal (disasterType : DisasterType) (location : string)
           (post : SocialMediaPost.t) : bool :=
  match signalOf post with
  | Some (d, l) => DisasterType_eqb d disasterType && String.eqb l location
  | None => false
  end.

(** The alert is the one of the key [(disasterType, location)]. *)
Definition alertFor (disasterType : DisasterType) (location : string)
           (alert : DisasterAlert.t) : bool :=
  DisasterType_eqb (DisasterAlert.disasterType alert) disasterType
  && String.eqb (DisasterAlert.location alert) location.

(** The urgency level [analyzePost] gives a post. *)
Definition urgencyLevelOf (post : SocialMediaPost.t) : UrgencyLevel :=
  SocialMediaAnalyzer.urgencyOf
    (List.length
       (SocialMediaAnalyzer.matchesIn
          (Js.toLowerCase (SocialMediaPost.text post))
          SocialMediaAnalyzer.urgencyKeywords)).

(** The aggregator's map once the batch has been consumed. *)
Definition aggregate (sentimentScoreOf : string -> Q)
           (posts : list SocialMediaPost.t) (w : World)
  : SocialMediaAnalyzer.AlertMap :=
  fst (SocialMediaAnalyzer.processPosts sentimentScoreOf [] posts w).

(** The number of posts of the batch that carry a signal key. *)
Definition reports (disasterType : DisasterType) (location : string)
           (posts : list SocialMediaPost.t) : nat :=
  List.length (filter (hasSignal disasterType location) posts).

(** The fields of an alert that no merge may touch. *)
Record SameIdentity (a a' : DisasterAlert.t) : Prop := {
  same_id : DisasterAlert.id a' = DisasterAlert.id a;
  same_disasterType :
    DisasterAlert.disasterType a' = DisasterAlert.disasterType a;
  same_location : DisasterAlert.location a' = DisasterAlert.location a;
  same_coordinates :
    DisasterAlert.coordinates a' = DisasterAlert.coordinates a;
  same_urgencyLevel :
    DisasterAlert.urgencyLevel a' = DisasterAlert.urgencyLevel a;
  same_keywords : DisasterAlert.keywords a' = DisasterAlert.keywords a;
  same_affectedPopulation :
    DisasterAlert.affectedPopulation a' = DisasterAlert.affectedPopulation a;
  same_timestamp : DisasterAlert.timestamp a' = DisasterAlert.timestamp a
}.

(** ** The aggregator as a transition system

    The only part of an analysis that depends on the world is its
    [coordinates]; the only parts of a new alert that do are its [id], its
    [affectedPopulation] and its [timestamp].  Abstracting them gives the
    transitions of the alert map, one per post. *)

Section Transitions.

Import SocialMediaAnalyzer.

Variable sentimentScoreOf : string -> Q.

(** The analysis of a post, given the coordinates drawn for it. *)
Definition analysisWith (post : SocialMediaPost.t)
           (coordinates : Coordinates) : PostAnalysis.t :=
  let text := Js.toLowerCase (SocialMediaPost.text post) in
  let scan := detectType text in
  let maxMatches := snd (fst scan) in
  let urgencyCount := List.length (matchesIn text urgencyKeywords) in
  PostAnalysis.mk
    (match fst (fst scan) with Some _ => true | None => false end
     && (0 <? maxMatches)%nat)
    (fst (fst scan))
    (extractLocation text (SocialMediaPost.location post))
    coordinates
    (calculateConfidence maxMatches urgencyCount (sentimentScoreOf text)
                         (List.length (tokenize text)))
    (calculateInitialSeverity (urgencyOf urgencyCount)
                              (sentimentScoreOf text) maxMatches)
    (sentimentScoreOf text)
    (urgencyOf urgencyCount)
    (snd scan).

(** The alert a post creates, given what the world supplies. *)
Definition newAlert (post : SocialMediaPost.t) (analysis : PostAnalysis.t)
           (disasterType : DisasterType) (id : AlertId)
           (affectedPopulation : Q) (timestamp : Z) : DisasterAlert.t :=
  DisasterAlert.mk id disasterType
    (PostAnalysis.location analysis) (PostAnalysis.coordinates analysis)
    (PostAnalysis.confidence analysis) (PostAnalysis.severity analysis)
    affectedPopulation 1%nat
    (PostAnalysis.sentimentScore analysis)
    (PostAnalysis.urgencyLevel analysis)
    (PostAnalysis.keywords analysis)
    timestamp [post].

Inductive Step (post : SocialMediaPost.t) (alerts : AlertMap)
  : AlertMap -> Prop :=
| StepSkip :
    signalOf post = None ->
    Step post alerts alerts
| StepMerge disasterType location coordinates existing :
    signalOf post = Some (disasterType, location) ->
    get (keyOf disasterType location) alerts = Some existing ->
    Step post alerts
         (update (keyOf disasterType location)
                 (fun e => merge e post (analysisWith post coordinates))
                 alerts)
| StepCreate disasterType location coordinates id population timestamp :
    signalOf post = Some (disasterType, location) ->
    get (keyOf disasterType location) alerts = None ->
    Step post alerts
         (alerts ++
          [(keyOf disasterType location,
            newAlert post (analysisWith post coordinates) disasterType
                     id population timestamp)]).

Inductive Steps : list SocialMediaPost.t -> AlertMap -> AlertMap -> Prop :=
| StepsNil alerts : Steps [] alerts alerts
| StepsCons post posts alerts alerts' alerts'' :
    Step post alerts alerts' ->
    Steps posts alerts' alerts'' ->
    Steps (post :: posts) alerts alerts''.

(** The least severity an alert can have after [reportCount] reports. *)
Definition severityFloor (reportCount : nat) : Z :=
  if (reportCount <? 5)%nat then 2
  else Z.min 5 (Z.of_nat reportCount - 2).

(** What holds of every alert of the map. *)
Record AlertOk (alert : DisasterAlert.t) : Prop := {
  ok_reports : (1 <= DisasterAlert.reportCount alert)%nat;
  ok_confidence :
    (0 <= DisasterAlert.confidence alert
     /\ DisasterAlert.confidence alert <= 1)%Q;
  ok_severity :
    exists n : Z,
      DisasterAlert.severity alert = inject_Z n
      /\ (severityFloor (DisasterAlert.reportCount alert) <= n <= 5)%Z;
  ok_first :
    exists first rest,
      DisasterAlert.sources alert = first :: rest
      /\ signalOf first = Some (DisasterAlert.disasterType alert,
                                DisasterAlert.location alert)
      /\ DisasterAlert.urgencyLevel alert = urgencyLevelOf first
}.

(** What holds of the map: one entry per key, stored under the key of
    its own type and location. *)
Definition MapOk (alerts : AlertMap) : Prop :=
  NoDup (map fst alerts)
  /\ forall key alert,
       In (key, alert) alerts ->
       key = keyOf (DisasterAlert.disasterType alert)
                   (DisasterAlert.location alert)
       /\ AlertOk alert.

End Transitions.

(** An image of one colour, as the bytes of a 100 x 100 canvas. *)
Definition uniformImage (r g b : Z) : list Z :=
  List.concat (repeat [r; g; b; 255%Z] (100 * 100)).

(** ** Ranking *)

(** The alerts whose confidence is [c]. *)
Definition atConfidence (c : Q) (a : DisasterAlert.t) : bool :=
  Qeq_bool (DisasterAlert.confidence a) c.

(** [a] may stand before [b] in a list ranked by descending confidence. *)
Definition notBelow (a b : DisasterAlert.t) : Prop :=
  (DisasterAlert.confidence b <= DisasterAlert.confidence a)%Q.

(** ** Sample inputs *)

(** A world whose every draw is [u] and whose clock ticks once a reading. *)
Definition constantWorld (u : Q) : World :=
  mkWorld (fun _ => u) 0 (fun n => Z.of_nat n) 0.

(** A post on twitter with a text and, possibly, a location field. *)
Definition postOf (text : string) (location : option string)
  : SocialMediaPost.t :=
  SocialMediaPost.mk "post-1" text "User1" location None
                     "2025-03-21T00:00:00.000Z" twitter.

(** Ten reports of one flood, each of sentiment -20 under [gloomy]. *)
Definition tenFloodPosts : list SocialMediaPost.t :=
  repeat (postOf "flood"%string (Some "Pune"%string)) 10.

Definition gloomy (text : string) : Q := (-20)%Q.

(* ================================================================== *)
(** * Further code of the repository *)
(* ================================================================== *)

From Stdlib Require DecimalString.

(** ** [analyzeSocialMedia] of [DisasterDetection.tsx] *)

(** The test [alert.urgencyLevel === 'critical' || alert.severity >= 4]
    under which a published alert is turned into a disaster. *)
Definition alertCreatesDisaster (alert : DisasterAlert.t) : bool :=
  UrgencyLevel_eqb (DisasterAlert.urgencyLevel alert) critical
  || Js.leb 4 (DisasterAlert.severity alert).

(** The severity the [switch] of [calculateInitialSeverity] starts from. *)
Definition urgencyBase (urgencyLevel : UrgencyLevel) : Q :=
  match urgencyLevel with
  | critical => 5
  | high => 4
  | medium => 3
  | low => 2
  end.

(** The sentiment score [analyzePost] reads for a post. *)
Definition sentimentOf (sentimentScoreOf : string -> Q)
           (post : SocialMediaPost.t) : Q :=
  sentimentScoreOf (Js.toLowerCase (SocialMediaPost.text post)).

(** ** Characters of a string *)

Fixpoint stringForall (P : ascii -> bool) (s : string) : bool :=
  match s with
  | EmptyString => true
  | String c s' => P c && stringForall P s'
  end.

(** A lower-case letter, a digit or an underscore. *)
Definition tokenChar (c : ascii) : bool :=
  Js.isLower c || Js.isDigit c || Ascii.eqb c "_"%char.

(** The location names a major city, for [estimateAffectedPopulation]. *)
Definition namesMajorCity (location : string) : bool :=
  existsb (fun city => Js.includes (Js.toLowerCase location) city)
          SocialMediaAnalyzer.majorCities.

(** A computation leaves the source of random numbers as it was (it can
    only move on in it). *)
Definition keepsSource {A} (c : M A) : Prop :=
  forall w, randoms (snd (c w)) = randoms w.

(** An estimate of [estimateAffectedPopulation] for a location. *)
Definition populationEstimate (location : string) (population : Q) : Prop :=
  exists n : Z,
    (population == inject_Z n)%Q
    /\ if namesMajorCity location
       then (10000 <= n < 60000)%Z
       else (1000 <= n < 11000)%Z.

(** ** Images *)

(** The bytes of a canvas: each from 0 to 255. *)
Definition isByte (z : Z) : Prop := (0 <= z <= 255)%Z.

(** A number from 0 to 1. *)
Definition inUnit (q : Q) : Prop := (0 <= q <= 1)%Q.

(** ** [generateMockPosts] *)

Module MockPosts.

Import SocialMediaAnalyzer.
Local Open Scope string_scope.
Local Open Scope Q_scope.

(** An integer in a template literal. *)
Definition showInt (z : Z) : string :=
  DecimalString.NilZero.string_of_int (Z.to_int z).

(** [Math.trunc], which [new Date(t)] applies to its argument. *)
Definition truncate (x : Q) : Z :=
  if Js.ltb x 0 then Qceiling x else Qfloor x.

(** [s.replace(pattern, replacement)] for a string pattern: the first
    occurrence is replaced (the replacement holds no [$]). *)
Fixpoint replaceFirst (pattern replacement s : string) : string :=
  if String.prefix pattern s
  then replacement ++ Js.dropChars (String.length pattern) s
  else match s with
       | EmptyString => EmptyString
       | String c s' => String c (replaceFirst pattern replacement s')
       end.

(** [{ text, type }]. *)
Definition templates : list (string * string) :=
  [ ("Heavy flooding in {location}! Water levels rising rapidly. Need immediate help! #Flood #Emergency", "flood");
    ("Massive fire outbreak in {location}. Smoke visible from miles away. Evacuate now! #Fire #Disaster", "fire");
    ("Strong earthquake felt in {location}! Buildings shaking. Everyone stay safe! #Earthquake", "earthquake");
    ("Cyclone hitting {location} with strong winds. Trees falling everywhere. Stay indoors! #Cyclone", "hurricane");
    ("Landslide reported in {location}. Roads blocked. People trapped. Send help urgently! #Landslide", "landslide");
    ("Severe flooding continues in {location}. Many families stranded on rooftops. #FloodRelief", "flood");
    ("Forest fire spreading rapidly near {location}. Wildlife and villages at risk. #ForestFire", "fire");
    ("Another tremor felt in {location}. Buildings damaged. Medical help needed. #EarthquakeAlert", "earthquake");
    ("Hurricane warning for {location}! Winds expected to reach 150 km/h. Evacuate coastal areas! #Storm", "hurricane");
    ("Flash floods in {location} after heavy rain. Cars submerged. Rescue operations underway. #Flood", "flood") ].

Definition platforms : list Platform :=
  [twitter; facebook; instagram; reddit].

(** [table[Math.floor(Math.random() * table.length)]]; [None] when the
    index falls outside the table, which no draw in [0,1) makes it do. *)
Definition pick {A} (table : list A) : M (option A) :=
  u <- mathRandom ;;
  let index := Qfloor (u * Js.ofNat (List.length table)) in
  ret (if (index <? 0)%Z then None else nth_error table (Z.to_nat index)).

Section WithDates.

(** [ms => new Date(ms).toISOString()]. *)
Variable toISOString : Z -> string.

(** The body of the loop, for its index [i]. *)
Definition mockPost (i : nat) : M (option SocialMediaPost.t) :=
  template <- pick templates ;;
  location <- pick indianCities ;;
  match template, location with
  | Some (text, _), Some (location, coordinates) =>
      let locationName := Js.capitalize location in
      now <- dateNow ;;
      author <- mathRandom ;;
      now' <- dateNow ;;
      age <- mathRandom ;;
      platform <- pick platforms ;;
      match platform with
      | Some platform =>
          ret (Some (SocialMediaPost.mk
                       ("post-" ++ showInt now ++ "-"
                        ++ showInt (Z.of_nat i))
                       (replaceFirst "{location}" locationName text)
                       ("User" ++ showInt (Qfloor (author * 1000)))
                       (Some locationName)
                       (Some coordinates)
                       (toISOString
                          (truncate (inject_Z now' - age * 3600000)))
                       platform))
      | None => ret None
      end
  | _, _ => ret None
  end.

(** [for (let i = 0; i < count; i++)], from [i] on with [todo] rounds
    left. *)
Fixpoint mockPostsFrom (todo i : nat) (posts : list SocialMediaPost.t)
  : M (option (list SocialMediaPost.t)) :=
  match todo with
  | O => ret (Some posts)
  | S todo' =>
      post <- mockPost i ;;
      match post with
      | Some post => mockPostsFrom todo' (S i) (posts ++ [post])%list
      | None => ret None
      end
  end.

Definition generateMockPosts (count : nat)
  : M (option (list SocialMediaPost.t)) :=
  mockPostsFrom count 0 [].

End WithDates.

(** A post a template and a gazetteer entry give. *)
Definition fromTemplate (post : SocialMediaPost.t) : Prop :=
  exists text type city lat lng disasterType,
    In (text, type) templates
    /\ In (city, (lat, lng)) indianCities
    /\ typeName disasterType = type
    /\ SocialMediaPost.text post
       = replaceFirst "{location}" (Js.capitalize city) text
    /\ SocialMediaPost.location post = Some (Js.capitalize city)
    /\ SocialMediaPost.coordinates post = Some (lat, lng)
    /\ signalOf post = Some (disasterType, Js.capitalize city).

(** The check of one template against one gazetteer entry. *)
Definition classifiedAsLabelled (template : string * string)
           (entry : string * (Q * Q)) : bool :=
  let name := Js.capitalize (fst entry) in
  let text := Js.toLowerCase (replaceFirst "{location}" name (fst template)) in
  match detectType text with
  | (Some disasterType, maxMatches, _) =>
      (0 <? maxMatches)%nat
      && String.eqb (typeName disasterType) (snd template)
  | (None, _, _) => false
  end.

End MockPosts.

(** ** [analyzeSatelliteImage] and [createDisasterFromDetection] of
    [DisasterDetection.tsx] *)

(** The row inserted into the [disasters] table. *)
Module DisasterRow.
Record t := mk {
  title : string;
  description : string;
  location_name : string;
  latitude : Q;
  longitude : Q;
  type : string;
  severity : Q;
  status : string;
  affected_population : Q;
  affected_radius_km : Q
}.
End DisasterRow.

Module SatelliteDisaster.

Import SatelliteDetection.
Local Open Scope string_scope.
Local Open Scope Q_scope.


Section WithHost.

(** [(x, digits) => x.toFixed(digits)], [Math.sqrt] and [Math.PI]. *)
Variable toFixed : Q -> nat -> string.
Variable sqrt : Q -> Q.
Variable PI : Q.



End WithHost.

End SatelliteDisaster.

(** ** The bounds of [DisasterMap] in [Map.tsx] *)

Module MapBounds.

Local Open Scope Q_scope.

Record t := mk { minLng : Q; maxLng : Q; minLat : Q; maxLat : Q }.





End MapBounds.

(** ** The order of the map *)

(** The key of a post is added to the keys seen so far when it is new. *)
Definition noteKey (seen : list string) (post : SocialMediaPost.t)
  : list string :=
  match signalOf post with
  | Some (disasterType, location) =>
      let key := SocialMediaAnalyzer.keyOf disasterType location in
      if Js.inList key seen then seen else (seen ++ [key])%list
  | None => seen
  end.

(** The distinct keys of the disaster-related posts of a batch, in the
    order in which they first occur. *)
Definition keysInOrder (posts : list SocialMediaPost.t) : list string :=
  fold_left noteKey posts [].

(** ** [class ResourceAllocationModel]: the training data *)

Module DisasterInput.
Record t := mk {
  severity : Q;
  affectedPopulation : Q;
  affectedRadius : Q;
  disasterType : string;
  existingResources : Q
}.
End DisasterInput.

Module ResourceAllocationModel.

Local Open Scope string_scope.
Local Open Scope Q_scope.

Definition disasterTypeMap : list (string * Q) :=
  [ ("earthquake", 0); ("flood", 1); ("hurricane", 2); ("tornado", 3);
    ("wildfire", 4); ("tsunami", 5) ].

(** [this.disasterTypeMap[type] / 5]: a number for the keys of the table,
    and not a number ([None]) for every other string. *)
Definition typeFeature (type : string) : option Q :=
  match find (fun e => String.eqb (fst e) type) disasterTypeMap with
  | Some (_, code) => Some (code / 5)
  | None => None
  end.



Section WithLog10.

(** [Math.log10]. *)
Variable log10 : Q -> Q.





End WithLog10.



End ResourceAllocationModel.

(* ================================================================== *)
(** * Arithmetic of the host numbers *)
(* ================================================================== *)

Section NumberFacts.

Local Open Scope Q_scope.

Lemma ltb_spec (x y : Q) : reflect (x < y) (Js.ltb x y).
Proof.
  unfold Js.ltb. destruct (x ?= y) eqn:E; constructor.
  - apply Qeq_alt in E. lra.
  - now apply Qlt_alt.
  - apply Qgt_alt in E. lra.
Qed.

Lemma ofNat_le (n m : nat) : (n <= m)%nat -> Js.ofNat n <= Js.ofNat m.
Proof.
  intros H. unfold Js.ofNat. rewrite <- Zle_Qle. lia.
Qed.

Lemma ofNat_nonneg (n : nat) : 0 <= Js.ofNat n.
Proof. apply (ofNat_le 0 n). lia. Qed.

Lemma ceil_ge (x : Q) : x <= Js.ceil x.
Proof. apply Qle_ceiling. Qed.

Lemma ceil_inject (z : Z) : Js.ceil (inject_Z z) = inject_Z z.
Proof. unfold Js.ceil. now rewrite Qceiling_Z. Qed.

Lemma ceil_le_inject (x : Q) (z : Z) : x <= inject_Z z -> Js.ceil x <= inject_Z z.
Proof.
  intros H. unfold Js.ceil. rewrite <- Zle_Qle.
  rewrite <- (Qceiling_Z z). now apply Qceiling_resp_le.
Qed.

End NumberFacts.

(** Case analysis on every [Qmin] and [Qmax] in sight. *)
Ltac qminmax_at a b spec op :=
  let m := fresh "m" in
  let H := fresh "Hm" in
  pose proof (spec a b) as H;
  set (m := op a b) in *; clearbody m;
  destruct H as [[? ?]|[? ?]].

Ltac qminmax :=
  repeat match goal with
  | |- context [Qmin ?a ?b] => qminmax_at a b Q.min_spec Qmin
  | |- context [Qmax ?a ?b] => qminmax_at a b Q.max_spec Qmax
  | _ : context [Qmin ?a ?b] |- _ => qminmax_at a b Q.min_spec Qmin
  | _ : context [Qmax ?a ?b] |- _ => qminmax_at a b Q.max_spec Qmax
  end.

(* ================================================================== *)
(** * The aggregator follows its transition system *)
(* ================================================================== *)

Section Pipeline.

Import SocialMediaAnalyzer.

Variable sentimentScoreOf : string -> Q.

Local Abbreviation analysis := (analysisWith sentimentScoreOf).
Local Abbreviation step := (Step sentimentScoreOf).
Local Abbreviation steps := (Steps sentimentScoreOf).

Lemma analyzePost_eq post w :
  analyzePost sentimentScoreOf post w =
  (let r := getCoordinates
              (extractLocation (Js.toLowerCase (SocialMediaPost.text post))
                               (SocialMediaPost.location post)) w in
   (analysis post (fst r), snd r)).
Proof.
  unfold analyzePost, analysisWith, bind, ret.
  destruct (detectType _) as [[dt mm] kws]. cbn [fst snd].
  destruct (getCoordinates _ w). reflexivity.
Qed.

Lemma signalOf_analysis post c :
  match PostAnalysis.isDisasterRelated (analysis post c),
        PostAnalysis.disasterType (analysis post c) with
  | true, Some t =>
      signalOf post = Some (t, PostAnalysis.location (analysis post c))
  | _, _ => signalOf post = None
  end.
Proof.
  unfold signalOf, analysisWith.
  cbn [PostAnalysis.isDisasterRelated PostAnalysis.disasterType
       PostAnalysis.location].
  destruct (detectType _) as [[[t|] mm] kws]; cbn [fst snd andb];
    [|reflexivity].
  destruct (0 <? mm)%nat; reflexivity.
Qed.

Lemma processPost_step alerts post w :
  step post alerts (fst (processPost sentimentScoreOf alerts post w)).
Proof.
  unfold processPost, bind. rewrite analyzePost_eq. cbn zeta.
  set (r := getCoordinates _ w).
  pose proof (signalOf_analysis post (fst r)) as S.
  cbn beta iota.
  destruct (PostAnalysis.isDisasterRelated (analysis post (fst r)));
    [|now constructor].
  destruct (PostAnalysis.disasterType (analysis post (fst r))) as [t|];
    [|now constructor].
  destruct (get _ alerts) as [e|] eqn:G.
  - unfold ret. cbn [fst]. eapply StepMerge; eauto.
  - unfold create, bind, ret, dateNow, mathRandom,
      estimateAffectedPopulation.
    destruct (existsb _ majorCities);
      cbv beta iota zeta delta [fst snd]; eapply StepCreate; eauto.
Qed.

Lemma processPosts_steps posts : forall alerts w,
  steps posts alerts (fst (processPosts sentimentScoreOf alerts posts w)).
Proof.
  induction posts as [|post posts IH]; intros alerts w; cbn [processPosts].
  - constructor.
  - unfold bind. pose proof (processPost_step alerts post w) as S.
    destruct (processPost _ alerts post w) as [alerts' w'].
    econstructor; eauto.
Qed.

Lemma processPosts_app posts more : forall alerts w,
  processPosts sentimentScoreOf alerts (posts ++ more) w =
  let r := processPosts sentimentScoreOf alerts posts w in
  processPosts sentimentScoreOf (fst r) more (snd r).
Proof.
  induction posts as [|post posts IH]; intros alerts w.
  - reflexivity.
  - cbn [app processPosts]. unfold bind.
    destruct (processPost _ alerts post w) as [alerts' w']. apply IH.
Qed.

Lemma aggregate_steps posts w :
  steps posts [] (aggregate sentimentScoreOf posts w).
Proof. apply processPosts_steps. Qed.

Lemma aggregate_app_steps posts more w :
  steps more (aggregate sentimentScoreOf posts w)
        (aggregate sentimentScoreOf (posts ++ more) w).
Proof.
  unfold aggregate. rewrite processPosts_app. apply processPosts_steps.
Qed.

End Pipeline.

(* ================================================================== *)
(** * The alert map *)
(* ================================================================== *)

Section MapFacts.
Import SocialMediaAnalyzer.
Local Open Scope list_scope.

Lemma get_nil key : get key [] = None.
Proof. reflexivity. Qed.

Lemma get_cons key k a alerts :
  get key ((k, a) :: alerts) = if String.eqb k key then Some a else get key alerts.
Proof. unfold get. cbn. now destruct (String.eqb k key). Qed.

Lemma get_app key alerts more :
  get key (alerts ++ more) =
  match get key alerts with Some a => Some a | None => get key more end.
Proof.
  induction alerts as [|[k a] alerts IH]; [reflexivity|].
  cbn [app]. rewrite !get_cons. now destruct (String.eqb k key).
Qed.

Lemma get_update_same key f alerts :
  get key (update key f alerts) = option_map f (get key alerts).
Proof.
  induction alerts as [|[k a] alerts IH]; [reflexivity|].
  cbn [update]. destruct (String.eqb k key) eqn:E; rewrite !get_cons, E.
  - reflexivity.
  - exact IH.
Qed.

Lemma get_update_other key key' f alerts :
  key <> key' -> get key' (update key f alerts) = get key' alerts.
Proof.
  intros N. induction alerts as [|[k a] alerts IH]; [reflexivity|].
  cbn [update]. destruct (String.eqb_spec k key) as [->|E]; rewrite !get_cons.
  - destruct (String.eqb_spec key key'); [contradiction|reflexivity].
  - now rewrite IH.
Qed.

Lemma keys_update key f alerts :
  map fst (update key f alerts) = map fst alerts.
Proof.
  induction alerts as [|[k a] alerts IH]; [reflexivity|].
  cbn [update]. destruct (String.eqb k key); cbn; [reflexivity|now rewrite IH].
Qed.

Lemma get_None key alerts :
  get key alerts = None <-> ~ In key (map fst alerts).
Proof.
  induction alerts as [|[k a] alerts IH]; [cbn; tauto|].
  rewrite get_cons. cbn [map fst In].
  destruct (String.eqb_spec k key) as [->|E].
  - split; [discriminate|intros N; exfalso; apply N; now left].
  - rewrite IH. tauto.
Qed.

Lemma get_In key a alerts : get key alerts = Some a -> In (key, a) alerts.
Proof.
  induction alerts as [|[k b] alerts IH]; [discriminate|].
  rewrite get_cons. destruct (String.eqb_spec k key) as [->|E].
  - intros [= ->]. now left.
  - intros H. right. auto.
Qed.

Lemma In_get key a alerts :
  NoDup (map fst alerts) -> In (key, a) alerts -> get key alerts = Some a.
Proof.
  induction alerts as [|[k b] alerts IH]; [contradiction|].
  cbn [map fst]. intros ND [[= -> ->]|H]; rewrite get_cons.
  - now rewrite String.eqb_refl.
  - inversion_clear ND as [|? ? N ND'].
    destruct (String.eqb_spec k key) as [->|E]; [|auto].
    exfalso. apply N. change key with (fst (key, a)). now apply in_map.
Qed.

Lemma In_update key f k a alerts :
  In (k, a) (update key f alerts) ->
  In (k, a) alerts \/ (k = key /\ exists e, In (key, e) alerts /\ a = f e).
Proof.
  induction alerts as [|[k0 b] alerts IH]; [contradiction|].
  cbn [update]. destruct (String.eqb_spec k0 key) as [->|E].
  - intros [[= <- <-]|H].
    + right. split; [reflexivity|]. exists b. split; [now left|reflexivity].
    + left. now right.
  - intros [H|H].
    + left. now left.
    + destruct (IH H) as [H'|(-> & e & H' & ->)].
      * left. now right.
      * right. split; [reflexivity|]. exists e. split; [now right|reflexivity].
Qed.

Lemma keyOf_inj t l t' l' : keyOf t l = keyOf t' l' -> t = t' /\ l = l'.
Proof.
  unfold keyOf. destruct t, t'; cbn; intros H; inversion H; auto.
Qed.
End MapFacts.

(* ================================================================== *)
(** * Invariants of the aggregator *)
(* ================================================================== *)

Section Invariants.
Import SocialMediaAnalyzer.
Local Open Scope Q_scope.
Variable sentimentScoreOf : string -> Q.
Local Abbreviation analysis := (analysisWith sentimentScoreOf).
Local Abbreviation step := (Step sentimentScoreOf).
Local Abbreviation steps := (Steps sentimentScoreOf).

Lemma calculateConfidence_range km uc s tok :
  0 <= calculateConfidence km uc s tok <= 1.
Proof.
  unfold calculateConfidence.
  pose proof (ofNat_nonneg km). pose proof (ofNat_nonneg uc).
  pose proof (Qabs_nonneg s).
  destruct (Js.ltb s 0); destruct ((10 <=? tok)%nat && (tok <=? 100)%nat);
    qminmax; lra.
Qed.

Lemma calculateInitialSeverity_level u s km :
  exists n : Z,
    calculateInitialSeverity u s km = inject_Z n /\ (2 <= n <= 5)%Z.
Proof.
  unfold calculateInitialSeverity.
  destruct u, (Js.ltb s (-5)), (3 <=? km)%nat;
    match goal with
    | |- exists n, ?q = _ /\ _ =>
        exists (Qceiling q); split; [reflexivity | vm_compute; split; discriminate]
    end.
Qed.

Lemma calculateSeverity_level alert n :
  DisasterAlert.severity alert = inject_Z n ->
  (severityFloor (Nat.pred (DisasterAlert.reportCount alert)) <= n <= 5)%Z ->
  exists n' : Z,
    calculateSeverity alert = inject_Z n'
    /\ (severityFloor (DisasterAlert.reportCount alert) <= n' <= 5)%Z
    /\ (n <= n')%Z.
Proof.
  intros E B. unfold calculateSeverity. rewrite E.
  exists (Qceiling
            (let severity := inject_Z n in
             let severity :=
               if (10 <=? DisasterAlert.reportCount alert)%nat
               then Qmin 5 (severity + 1)
               else if (5 <=? DisasterAlert.reportCount alert)%nat
                    then Qmin 5 (severity + 0.5) else severity in
             if Js.ltb (DisasterAlert.sentimentScore alert) (-10)
             then Qmin 5 (severity + 1) else severity)).
  split; [reflexivity|]. cbv zeta.
  assert (C : n = 2%Z \/ n = 3%Z \/ n = 4%Z \/ n = 5%Z).
  { unfold severityFloor in B.
    destruct (Nat.ltb_spec (Nat.pred (DisasterAlert.reportCount alert)) 5);
      lia. }
  unfold severityFloor in *.
  destruct (Nat.ltb_spec (Nat.pred (DisasterAlert.reportCount alert)) 5),
           (Nat.ltb_spec (DisasterAlert.reportCount alert) 5),
           (Nat.leb_spec 10 (DisasterAlert.reportCount alert)),
           (Nat.leb_spec 5 (DisasterAlert.reportCount alert)),
           (Js.ltb (DisasterAlert.sentimentScore alert) (-10));
    try lia;
    destruct C as [->|[->|[->| ->]]];
    try lia;
    match goal with
    | |- context [Qceiling ?q] =>
        let z := eval vm_compute in (Qceiling q) in
        change (Qceiling q) with z
    end; lia.
Qed.

Lemma merge_ok existing post an :
  AlertOk existing -> AlertOk (merge existing post an).
Proof.
  intros [R C (n & E & B) (first & rest & Src & Sig & U)].
  constructor; unfold merge, setSeverity;
    cbn [DisasterAlert.reportCount DisasterAlert.confidence
         DisasterAlert.severity DisasterAlert.sources
         DisasterAlert.disasterType DisasterAlert.location
         DisasterAlert.urgencyLevel].
  - lia.
  - destruct C. qminmax; lra.
  - match goal with
    | |- context [calculateSeverity ?c] =>
        destruct (calculateSeverity_level c n E B) as (n' & E' & B' & _)
    end.
    exists n'. split; [exact E'|exact B'].
  - exists first, (rest ++ [post])%list. rewrite Src. auto.
Qed.

Lemma signalOf_location post t l c :
  signalOf post = Some (t, l) ->
  PostAnalysis.location (analysis post c) = l.
Proof.
  unfold signalOf, analysisWith. cbn [PostAnalysis.location].
  destruct (detectType _) as [[[d|] mm] kws]; [|discriminate].
  destruct (0 <? mm)%nat; [|discriminate]. now intros [= _ <-].
Qed.

Lemma newAlert_ok post t l c id population timestamp :
  signalOf post = Some (t, l) ->
  AlertOk (newAlert post (analysis post c) t id population timestamp).
Proof.
  intros Sig. constructor; unfold newAlert;
    cbn [DisasterAlert.reportCount DisasterAlert.confidence
         DisasterAlert.severity DisasterAlert.sources
         DisasterAlert.disasterType DisasterAlert.location
         DisasterAlert.urgencyLevel].
  - lia.
  - apply calculateConfidence_range.
  - unfold analysisWith. cbn [PostAnalysis.severity].
    destruct (calculateInitialSeverity_level
                (urgencyOf (List.length
                   (matchesIn (Js.toLowerCase (SocialMediaPost.text post))
                              urgencyKeywords)))
                (sentimentScoreOf (Js.toLowerCase (SocialMediaPost.text post)))
                (snd (fst (detectType
                   (Js.toLowerCase (SocialMediaPost.text post))))))
      as (n & E & B).
    exists n. split; [exact E|]. unfold severityFloor. cbn. lia.
  - exists post, []. rewrite (signalOf_location _ _ _ _ Sig).
    split; [reflexivity|split; [exact Sig|reflexivity]].
Qed.

Lemma step_ok post alerts alerts' :
  MapOk alerts -> step post alerts alerts' -> MapOk alerts'.
Proof.
  intros [ND OK] S.
  destruct S as [Sig | t l c e Sig G | t l c id pop ts Sig G].
  - now split.
  - split; [now rewrite keys_update|].
    intros key alert H.
    destruct (In_update _ _ _ _ _ H) as [H'|(-> & e' & H' & ->)];
      [now apply OK|].
    destruct (OK _ _ H') as [K A]. split; [exact K|now apply merge_ok].
  - split.
    + rewrite map_app. cbn [map fst].
      apply get_None in G.
      apply NoDup_app; [exact ND|repeat constructor; intros []|].
      intros k I [<-|[]]. contradiction.
    + intros key alert H. apply in_app_or in H.
      destruct H as [H|[[= <- <-]|[]]]; [now apply OK|].
      split; [|now apply (newAlert_ok _ _ l)].
      unfold newAlert.
      cbn [DisasterAlert.disasterType DisasterAlert.location].
      now rewrite (signalOf_location _ _ _ _ Sig).
Qed.

Lemma steps_ok posts alerts alerts' :
  MapOk alerts -> steps posts alerts alerts' -> MapOk alerts'.
Proof.
  intros OK S. induction S as [|post posts a a' a'' S1 _ IH]; [exact OK|].
  apply IH. now apply (step_ok post a).
Qed.

Lemma aggregate_ok posts w : MapOk (aggregate sentimentScoreOf posts w).
Proof.
  apply (steps_ok posts []); [|apply aggregate_steps].
  split; [constructor|intros ? ? []].
Qed.
End Invariants.

(* ================================================================== *)
(** * The history of one key across a batch *)
(* ================================================================== *)

Section History.
Import SocialMediaAnalyzer.
Variable sentimentScoreOf : string -> Q.
Local Abbreviation analysis := (analysisWith sentimentScoreOf).
Local Abbreviation step := (Step sentimentScoreOf).
Local Abbreviation steps := (Steps sentimentScoreOf).

Lemma DisasterType_eqb_eq a b : DisasterType_eqb a b = true <-> a = b.
Proof.
  split; [|intros ->; apply String.eqb_refl].
  destruct a, b; (reflexivity || discriminate).
Qed.

Lemma hasSignal_true t l post :
  hasSignal t l post = true <-> signalOf post = Some (t, l).
Proof.
  unfold hasSignal. destruct (signalOf post) as [[d l']|].
  - rewrite andb_true_iff, DisasterType_eqb_eq, String.eqb_eq.
    split; [intros [-> ->]; reflexivity|intros [= -> ->]; auto].
  - split; discriminate.
Qed.

Lemma alertFor_true t l a :
  alertFor t l a = true <->
  DisasterAlert.disasterType a = t /\ DisasterAlert.location a = l.
Proof.
  unfold alertFor. now rewrite andb_true_iff, DisasterType_eqb_eq, String.eqb_eq.
Qed.

(** What one post does to the entry of a key. *)
Lemma step_get post alerts alerts' t l :
  step post alerts alerts' ->
  if hasSignal t l post
  then match get (keyOf t l) alerts with
       | Some a =>
           exists c,
             get (keyOf t l) alerts' = Some (merge a post (analysis post c))
       | None =>
           exists c id population timestamp,
             get (keyOf t l) alerts' =
             Some (newAlert post (analysis post c) t id population timestamp)
       end
  else get (keyOf t l) alerts' = get (keyOf t l) alerts.
Proof.
  intros S. destruct (hasSignal t l post) eqn:H.
  - apply hasSignal_true in H.
    destruct S as [Sig | t0 l0 c e Sig G | t0 l0 c id pop ts Sig G];
      rewrite H in Sig; [discriminate| |]; injection Sig as <- <-.
    + rewrite G. exists c. now rewrite get_update_same, G.
    + rewrite G. exists c, id, pop, ts.
      rewrite get_app, G, get_cons. now rewrite String.eqb_refl.
  - assert (N : signalOf post <> Some (t, l)).
    { intros E. apply hasSignal_true in E. congruence. }
    destruct S as [Sig | t0 l0 c e Sig G | t0 l0 c id pop ts Sig G].
    + reflexivity.
    + apply get_update_other. intros E. apply keyOf_inj in E.
      destruct E as [-> ->]. contradiction.
    + rewrite get_app. destruct (get (keyOf t l) alerts); [reflexivity|].
      rewrite get_cons.
      destruct (String.eqb_spec (keyOf t0 l0) (keyOf t l)) as [E|E];
        [|reflexivity].
      apply keyOf_inj in E. destruct E as [-> ->]. contradiction.
Qed.

Lemma SameIdentity_refl a : SameIdentity a a.
Proof. now constructor. Qed.

Lemma SameIdentity_trans a b c :
  SameIdentity a b -> SameIdentity b c -> SameIdentity a c.
Proof. intros [] []. constructor; congruence. Qed.

Lemma merge_SameIdentity existing post an :
  SameIdentity existing (merge existing post an).
Proof. now constructor. Qed.

(** The entry of a key, once present, stays and keeps its identity. *)
Lemma steps_get_Some posts alerts alerts' t l a :
  steps posts alerts alerts' ->
  get (keyOf t l) alerts = Some a ->
  exists a',
    get (keyOf t l) alerts' = Some a'
    /\ SameIdentity a a'
    /\ DisasterAlert.reportCount a' =
       (DisasterAlert.reportCount a + reports t l posts)%nat
    /\ (forall first rest,
          DisasterAlert.sources a = first :: rest ->
          exists rest', DisasterAlert.sources a' = first :: rest')
    /\ (DisasterAlert.confidence a <= 1 ->
        DisasterAlert.confidence a <= DisasterAlert.confidence a')%Q.
Proof.
  intros S. revert a.
  induction S as [alerts|post posts alerts alerts' alerts'' S1 _ IH];
    intros a G.
  - exists a. split; [exact G|]. split; [apply SameIdentity_refl|].
    split; [unfold reports; cbn; lia|]. split; [intros first rest E; now exists rest|].
    intros _. apply Qle_refl.
  - pose proof (step_get post alerts alerts' t l S1) as H.
    unfold reports. cbn [filter]. rewrite G in H.
    destruct (hasSignal t l post).
    + destruct H as (c & H). destruct (IH _ H) as (a' & G' & I & R & Src & C).
      exists a'. split; [exact G'|]. split; [|split; [|split]].
      * eapply SameIdentity_trans; [apply merge_SameIdentity|exact I].
      * rewrite R. unfold reports. cbn. lia.
      * intros first rest E. apply (Src first (rest ++ [post])%list).
        cbn [merge setSeverity DisasterAlert.sources]. now rewrite E.
      * intros LE.
        assert (M : (DisasterAlert.confidence a
                     <= DisasterAlert.confidence
                          (merge a post (analysis post c)) <= 1)%Q).
        { cbn [merge setSeverity DisasterAlert.confidence]. qminmax; lra. }
        destruct M as [M1 M2]. apply C in M2.
        eapply Qle_trans; eassumption.
    + destruct (IH _ H) as (a' & G' & I & R & Src & C).
      exists a'. repeat split; solve [auto | apply I].
Qed.

(** The entry of a key that was absent: absent still when no post of the
    batch carries the key, else created by the first post that does. *)
Lemma steps_get_None posts alerts alerts' t l :
  steps posts alerts alerts' ->
  get (keyOf t l) alerts = None ->
  match find (hasSignal t l) posts with
  | None => get (keyOf t l) alerts' = None /\ reports t l posts = 0%nat
  | Some first =>
      exists a' rest c id population timestamp,
        get (keyOf t l) alerts' = Some a'
        /\ DisasterAlert.sources a' = first :: rest
        /\ SameIdentity
             (newAlert first (analysis first c) t id population timestamp) a'
        /\ DisasterAlert.reportCount a' = reports t l posts
  end.
Proof.
  intros S.
  induction S as [alerts|post posts alerts alerts' alerts'' S1 S2 IH];
    intros G.
  - cbn. auto.
  - pose proof (step_get post alerts alerts' t l S1) as H.
    unfold reports. cbn [find filter]. rewrite G in H.
    destruct (hasSignal t l post).
    + destruct H as (c & id & pop & ts & H).
      destruct (steps_get_Some _ _ _ _ _ _ S2 H)
        as (a' & G' & I & R & Src & _).
      destruct (Src post [] eq_refl) as [rest E].
      exists a', rest, c, id, pop, ts. repeat split; try apply I; auto.
    + apply IH in H. exact H.
Qed.
End History.

(* ================================================================== *)
(** * Publication: the filter and the ranking *)
(* ================================================================== *)

Section Sorting.
Import SocialMediaAnalyzer.
Local Open Scope Q_scope.


Lemma sortInsert_perm compare a l :
  Permutation (sortInsert compare a l) (a :: l).
Proof.
  induction l as [|b l IH]; cbn [sortInsert]; [reflexivity|].
  destruct (Js.ltb 0 (compare a b)); [|reflexivity].
  rewrite IH. apply perm_swap.
Qed.

Lemma sort_perm compare l : Permutation (sort compare l) l.
Proof.
  induction l as [|a l IH]; cbn [sort]; [reflexivity|].
  rewrite sortInsert_perm. now constructor.
Qed.

Lemma sortInsert_sorted a l :
  StronglySorted notBelow l ->
  StronglySorted notBelow (sortInsert byConfidence a l).
Proof.
  induction 1 as [|b l S IH F]; cbn [sortInsert].
  - repeat constructor.
  - unfold byConfidence at 1.
    destruct (ltb_spec 0 (DisasterAlert.confidence b
                          - DisasterAlert.confidence a)) as [L|L].
    + constructor; [exact IH|].
      eapply Permutation_Forall; [symmetry; apply sortInsert_perm|].
      constructor; [unfold notBelow; lra|exact F].
    + constructor; [now constructor|].
      constructor; [unfold notBelow; lra|].
      eapply Forall_impl; [|exact F].
      unfold notBelow. intros c H. lra.
Qed.

Lemma sort_sorted l : StronglySorted notBelow (sort byConfidence l).
Proof.
  induction l as [|a l IH]; cbn [sort]; [constructor|].
  now apply sortInsert_sorted.
Qed.

Lemma sortInsert_stable c a l :
  filter (atConfidence c) (sortInsert byConfidence a l)
  = filter (atConfidence c) (a :: l).
Proof.
  induction l as [|b l IH]; cbn [sortInsert]; [reflexivity|].
  unfold byConfidence at 1.
  destruct (ltb_spec 0 (DisasterAlert.confidence b
                        - DisasterAlert.confidence a)) as [L|L];
    [|reflexivity].
  cbn [filter] in *. rewrite IH. unfold atConfidence.
  destruct (Qeq_bool (DisasterAlert.confidence a) c) eqn:A,
           (Qeq_bool (DisasterAlert.confidence b) c) eqn:B; try reflexivity.
  apply Qeq_bool_iff in A, B. lra.
Qed.

Lemma sort_stable c l :
  filter (atConfidence c) (sort byConfidence l) = filter (atConfidence c) l.
Proof.
  induction l as [|a l IH]; cbn [sort]; [reflexivity|].
  rewrite sortInsert_stable. cbn [filter]. now rewrite IH.
Qed.

Lemma published_iff a :
  published a = true <->
  (2 <= DisasterAlert.reportCount a)%nat
  \/ DisasterAlert.urgencyLevel a = critical.
Proof.
  unfold published. rewrite orb_true_iff, Nat.leb_le.
  destruct (DisasterAlert.urgencyLevel a); cbn; intuition discriminate.
Qed.

Variable sentimentScoreOf : string -> Q.

Lemma analyzePosts_eq posts w :
  fst (analyzePosts sentimentScoreOf posts w)
  = sort byConfidence
         (filter published (values (aggregate sentimentScoreOf posts w))).
Proof.
  unfold analyzePosts, aggregate, bind, ret.
  now destruct (processPosts _ [] posts w).
Qed.

(** C2. The list [analyzePosts] returns holds exactly the alerts of the
    map with [reportCount >= 2] or [urgencyLevel = critical], each as often
    as the map has it; an alert of one report and medium urgency is not in
    it; the list is in descending order of confidence, and the alerts of
    equal confidence stand in the order in which the map received them. *)
Theorem analyzePosts_filters_and_ranks posts w :
  let alerts := values (aggregate sentimentScoreOf posts w) in
  let output := fst (analyzePosts sentimentScoreOf posts w) in
  (forall a,
      In a output <->
      In a alerts
      /\ ((2 <= DisasterAlert.reportCount a)%nat
          \/ DisasterAlert.urgencyLevel a = critical))
  /\ Permutation output (filter published alerts)
  /\ (forall a,
         DisasterAlert.reportCount a = 1%nat ->
         DisasterAlert.urgencyLevel a = medium ->
         ~ In a output)
  /\ StronglySorted notBelow output
  /\ (forall c,
         filter (atConfidence c) output
         = filter (atConfidence c) (filter published alerts)).
Proof.
  intros alerts output. subst output. rewrite analyzePosts_eq. fold alerts.
  assert (I : forall a,
             In a (sort byConfidence (filter published alerts)) <->
             In a alerts
             /\ ((2 <= DisasterAlert.reportCount a)%nat
                 \/ DisasterAlert.urgencyLevel a = critical)).
  { intros a. rewrite <- published_iff, <- filter_In.
    split; apply Permutation_in;
      [apply sort_perm|symmetry; apply sort_perm]. }
  split; [exact I|]. split; [apply sort_perm|].
  split; [|split; [apply sort_sorted|intros c; apply sort_stable]].
  intros a R U H. apply I in H. destruct H as [_ [H|H]]; [lia|congruence].
Qed.
End Sorting.

(* ================================================================== *)
(** * One alert per key *)
(* ================================================================== *)

Section Keys.

Import SocialMediaAnalyzer.

Variable sentimentScoreOf : string -> Q.

Lemma MapOk_tail entry alerts : MapOk (entry :: alerts) -> MapOk alerts.
Proof.
  intros [ND OK]. split.
  - now inversion ND.
  - intros key alert H. apply OK. now right.
Qed.

(** The alerts of a type and a location are the entry of their key. *)
Lemma filter_alertFor t l alerts :
  MapOk alerts ->
  filter (alertFor t l) (values alerts)
  = match get (keyOf t l) alerts with Some a => [a] | None => [] end.
Proof.
  induction alerts as [|[k a] alerts IH]; intros OK; [reflexivity|].
  pose proof (IH (MapOk_tail _ _ OK)) as IH'. clear IH.
  destruct OK as [ND OK]. cbn [map fst] in ND. inversion_clear ND as [|? ? N _].
  destruct (OK k a (or_introl eq_refl)) as [K _].
  cbn [values map snd filter]. fold (values alerts).
  rewrite get_cons, IH'.
  destruct (alertFor t l a) eqn:A.
  - apply alertFor_true in A. destruct A as [<- <-]. rewrite <- K.
    rewrite String.eqb_refl.
    apply get_None in N. now rewrite N.
  - destruct (String.eqb_spec k (keyOf t l)) as [E|E]; [|reflexivity].
    rewrite K in E. apply keyOf_inj in E.
    assert (A' : alertFor t l a = true) by now apply alertFor_true.
    congruence.
Qed.

(** C1. During one call to [analyzePosts] the map holds one alert per key
    (disasterType, location): its keys are pairwise distinct, no alert
    stands for a key that no post of the batch carries, and the posts that
    carry a key are merged into exactly one alert, whose [reportCount] is
    their number; two such posts give one alert with [reportCount] 2. *)
Theorem one_alert_per_key posts w t l :
  let alerts := aggregate sentimentScoreOf posts w in
  NoDup (map fst alerts)
  /\ match reports t l posts with
     | O => filter (alertFor t l) (values alerts) = []
     | S n =>
         exists a,
           get (keyOf t l) alerts = Some a
           /\ filter (alertFor t l) (values alerts) = [a]
           /\ DisasterAlert.reportCount a = S n
     end
  /\ (forall p1 p2,
         signalOf p1 = Some (t, l) -> signalOf p2 = Some (t, l) ->
         exists a,
           values (aggregate sentimentScoreOf [p1; p2] w) = [a]
           /\ DisasterAlert.reportCount a = 2%nat).
Proof.
  intros alerts.
  assert (Count : forall ps,
    match reports t l ps with
    | O => filter (alertFor t l) (values (aggregate sentimentScoreOf ps w)) = []
    | S n =>
        exists a,
          get (keyOf t l) (aggregate sentimentScoreOf ps w) = Some a
          /\ filter (alertFor t l) (values (aggregate sentimentScoreOf ps w))
             = [a]
          /\ DisasterAlert.reportCount a = S n
    end).
  { intros ps.
    pose proof (aggregate_ok sentimentScoreOf ps w) as OK.
    pose proof (steps_get_None sentimentScoreOf ps [] _ t l
                  (aggregate_steps sentimentScoreOf ps w) eq_refl) as H.
    rewrite (filter_alertFor t l _ OK).
    destruct (find (hasSignal t l) ps) as [first|].
    - destruct H as (a & rest & c & id & pop & ts & G & _ & _ & R).
      rewrite G. destruct (reports t l ps) as [|n].
      + destruct (proj2 OK _ _ (get_In _ _ _ G)) as [_ [A _ _ _]]. lia.
      + exists a. auto.
    - destruct H as [G R]. now rewrite R, G. }
  split; [apply aggregate_ok|]. split; [apply Count|].
  intros p1 p2 S1 S2. specialize (Count [p1; p2]).
  apply hasSignal_true in S1, S2.
  unfold reports in Count. cbn [filter] in Count. rewrite S1, S2 in Count.
  cbn [List.length] in Count. destruct Count as (a & G & F & R).
  exists a. split; [|exact R]. clear F R.
  pose proof (aggregate_steps sentimentScoreOf [p1; p2] w) as St.
  apply hasSignal_true in S1, S2.
  remember (aggregate sentimentScoreOf [p1; p2] w) as agg eqn:E. clear E.
  inversion_clear St as [|? ? ? a1 ? St1 St'].
  inversion_clear St' as [|? ? ? a2 ? St2 St'']. inversion St''; subst.
  destruct St1 as [Sig|? ? ? ? Sig G1|? ? ? ? ? ? Sig G1];
    rewrite S1 in Sig; try discriminate; injection Sig as <- <-;
    try discriminate.
  cbn [app] in St2. remember [_] as one eqn:E1.
  destruct St2 as [Sig|? ? ? ? Sig G2|? ? ? ? ? ? Sig G2];
    rewrite S2 in Sig; try discriminate; injection Sig as <- <-; subst one.
  - cbn [update] in *. rewrite String.eqb_refl in *.
    rewrite get_cons, String.eqb_refl in G. cbn [values map snd].
    congruence.
  - rewrite get_cons, String.eqb_refl in G2. discriminate.
Qed.

End Keys.

(* ================================================================== *)
(** * Merging: escalation, confidence and the frame *)
(* ================================================================== *)

Section Merges.

Import SocialMediaAnalyzer.
Local Open Scope Q_scope.

Variable sentimentScoreOf : string -> Q.

Lemma aggregate_In_get posts w a :
  In a (values (aggregate sentimentScoreOf posts w)) ->
  get (keyOf (DisasterAlert.disasterType a) (DisasterAlert.location a))
      (aggregate sentimentScoreOf posts w) = Some a
  /\ AlertOk a.
Proof.
  intros H. apply in_map_iff in H. destruct H as ([k a'] & E & H).
  cbn in E. subst a'.
  destruct (aggregate_ok sentimentScoreOf posts w) as [ND OK].
  destruct (OK _ _ H) as [K A]. split; [|exact A].
  rewrite <- K. now apply In_get.
Qed.

(** C3. An alert that has accumulated 10 reports and whose running
    [sentimentScore] is below -10 has severity exactly 5, whatever the
    batch, the sentiment scores and the world were. *)
Theorem ten_reports_reach_severity_5 posts w a :
  In a (values (aggregate sentimentScoreOf posts w)) ->
  DisasterAlert.reportCount a = 10%nat ->
  DisasterAlert.sentimentScore a < -10 ->
  DisasterAlert.severity a == 5.
Proof.
  intros H R _. apply aggregate_In_get in H.
  destruct H as [_ [_ _ (n & E & B) _]].
  rewrite R in B. unfold severityFloor in B. cbn in B.
  assert (n = 5%Z) by lia. subst n. now rewrite E.
Qed.


(** C10. A merge leaves the [id], [disasterType], [location],
    [coordinates], [urgencyLevel], [keywords], [affectedPopulation] and
    [timestamp] of the alert as they were; so does any run of further
    posts; and the [urgencyLevel] the publication filter reads is that of
    the first post of the batch that carries the alert's key, which is
    also the first of its [sources]. *)
Theorem merges_keep_identity :
  (forall existing post signal,
      SameIdentity existing (merge existing post signal)
      /\ DisasterAlert.reportCount (merge existing post signal)
         = S (DisasterAlert.reportCount existing)
      /\ DisasterAlert.sources (merge existing post signal)
         = (DisasterAlert.sources existing ++ [post])%list)
  /\ (forall posts more w t l a,
         get (keyOf t l) (aggregate sentimentScoreOf posts w) = Some a ->
         exists a',
           get (keyOf t l) (aggregate sentimentScoreOf (posts ++ more) w)
           = Some a'
           /\ SameIdentity a a')
  /\ (forall posts w a,
         In a (values (aggregate sentimentScoreOf posts w)) ->
         exists first rest,
           DisasterAlert.sources a = first :: rest
           /\ find (hasSignal (DisasterAlert.disasterType a)
                              (DisasterAlert.location a)) posts = Some first
           /\ DisasterAlert.urgencyLevel a = urgencyLevelOf first
           /\ published a
              = ((2 <=? DisasterAlert.reportCount a)%nat
                 || UrgencyLevel_eqb (urgencyLevelOf first) critical)).
Proof.
  split; [|split].
  - intros existing post signal.
    split; [apply merge_SameIdentity|]. split; reflexivity.
  - intros posts more w t l a G.
    destruct (steps_get_Some sentimentScoreOf more _ _ t l a
                (aggregate_app_steps sentimentScoreOf posts more w) G)
      as (a' & G' & I & _).
    exists a'. auto.
  - intros posts w a H. apply aggregate_In_get in H. destruct H as [G _].
    pose proof (steps_get_None sentimentScoreOf posts [] _
                  (DisasterAlert.disasterType a) (DisasterAlert.location a)
                  (aggregate_steps sentimentScoreOf posts w) eq_refl) as H.
    destruct (find _ posts) as [first|].
    + destruct H as (a' & rest & c & id & pop & ts & G' & Src & I & _).
      rewrite G in G'. injection G' as <-.
      assert (U : DisasterAlert.urgencyLevel a = urgencyLevelOf first)
        by apply I.
      exists first, rest. repeat split; auto.
      unfold published. now rewrite U.
    + destruct H as [G' _]. congruence.
Qed.

End Merges.

(* ================================================================== *)
(** * The text classifier *)
(* ================================================================== *)

Section Confidence.

Import SocialMediaAnalyzer.
Local Open Scope Q_scope.

Variable sentimentScoreOf : string -> Q.



End Confidence.

Section Categories.

Import SocialMediaAnalyzer.

Variable sentimentScoreOf : string -> Q.




End Categories.

(* ================================================================== *)
(** * Severity levels *)
(* ================================================================== *)

Section Severity.

Import SocialMediaAnalyzer.
Local Open Scope Q_scope.

Variable sentimentScoreOf : string -> Q.

Lemma image_severity_level confidence a type :
  type <> SatelliteDetection.none ->
  Specified.severityLevel
    (SatelliteImageAnalyzer.calculateSeverity confidence a type).
Proof.
  intros N. unfold SatelliteImageAnalyzer.calculateSeverity.
  destruct (SatelliteDetection.isNone type) eqn:E;
    [destruct type; (discriminate || contradiction)|].
  cbv zeta. unfold Js.ceil.
  match goal with |- context [Qceiling ?x] => set (z := Qceiling x) end.
  clearbody z.
  destruct (Z_le_gt_dec z 1) as [A|A]; [|destruct (Z_le_gt_dec z 5) as [B|B]].
  - exists 1%Z. split; [lia|]. rewrite Zle_Qle in A.
    change (inject_Z 1) with 1 in *. qminmax; lra.
  - exists z. split; [lia|]. apply Z.gt_lt in A.
    rewrite Zlt_Qlt in A. rewrite Zle_Qle in B.
    change (inject_Z 1) with 1 in *. change (inject_Z 5) with 5 in *.
    qminmax; lra.
  - exists 5%Z. split; [lia|]. apply Z.gt_lt in B. rewrite Zlt_Qlt in B.
    change (inject_Z 5) with 5 in *. qminmax; lra.
Qed.

Lemma published_severity_level posts w a :
  In a (fst (analyzePosts sentimentScoreOf posts w)) ->
  In a (values (aggregate sentimentScoreOf posts w))
  /\ Specified.severityLevel (DisasterAlert.severity a).
Proof.
  rewrite analyzePosts_eq. intros H.
  apply (Permutation_in _ (sort_perm _ _)) in H.
  apply filter_In in H. destruct H as [H _]. split; [exact H|].
  apply aggregate_In_get in H. destruct H as [_ [_ _ (n & E & B) _]].
  exists n. split; [|now rewrite E].
  unfold severityFloor in B.
  destruct (Nat.ltb_spec (DisasterAlert.reportCount a) 5); lia.
Qed.

(** C7, as the code has it.  Every text signal, classified or not, has a
    severity among 2, 3, 4, 5; every image signal of a type other than
    [none] has one among 1, ..., 5; an image signal of type [none] has
    severity 0 and creates no disaster; a text signal that is not
    disaster-related leaves the alert map as it was; and every alert
    [analyzePosts] publishes has a severity among 1, ..., 5. *)
Theorem severity_levels :
  (forall post w,
      exists n : Z,
        (2 <= n <= 5)%Z
        /\ PostAnalysis.severity (fst (analyzePost sentimentScoreOf post w))
           == inject_Z n)
  /\ (forall confidence a type,
         type <> SatelliteDetection.none ->
         Specified.severityLevel
           (SatelliteImageAnalyzer.calculateSeverity confidence a type))
  /\ (forall confidence a,
         SatelliteImageAnalyzer.calculateSeverity
           confidence a SatelliteDetection.none == 0)
  /\ (forall result,
         SatelliteDetection.disasterType result = SatelliteDetection.none ->
         SatelliteImageAnalyzer.createsDisaster result = false)
  /\ (forall post w alerts,
         PostAnalysis.isDisasterRelated
           (fst (analyzePost sentimentScoreOf post w)) = false ->
         fst (processPost sentimentScoreOf alerts post w) = alerts)
  /\ (forall posts w a,
         In a (fst (analyzePosts sentimentScoreOf posts w)) ->
         Specified.severityLevel (DisasterAlert.severity a)
         /\ ~ DisasterAlert.severity a == 0).
Proof.
  repeat apply conj.
  - intros post w. rewrite analyzePost_eq. cbn [fst].
    unfold analysisWith. cbn [PostAnalysis.severity].
    match goal with
    | |- context [calculateInitialSeverity ?u ?s ?k] =>
        destruct (calculateInitialSeverity_level u s k) as (n & E & B)
    end.
    exists n. split; [exact B|now rewrite E].
  - apply image_severity_level.
  - reflexivity.
  - intros result E. unfold SatelliteImageAnalyzer.createsDisaster.
    now rewrite E.
  - intros post w alerts R. unfold processPost, bind.
    destruct (analyzePost sentimentScoreOf post w) as [signal w'].
    cbn [fst] in R. now rewrite R.
  - intros posts w a H.
    destruct (published_severity_level posts w a H) as [_ L].
    split; [exact L|]. destruct L as (n & B & E). rewrite E.
    intros Z. apply (Qeq_bool_iff) in Z. revert Z.
    assert (C : n = 1%Z \/ n = 2%Z \/ n = 3%Z \/ n = 4%Z \/ n = 5%Z) by lia.
    destruct C as [->|[->|[->|[->| ->]]]]; discriminate.
Qed.

(** C7 fails as stated: the analysis of a post without any disaster
    keyword is unclassified, yet its severity is 2, not 0. *)
Lemma unclassified_text_signal_has_severity_2 :
  let signal :=
    fst (analyzePost (fun _ => 0) (postOf "hello" None) (constantWorld 0.25))
  in
  PostAnalysis.disasterType signal = None
  /\ PostAnalysis.isDisasterRelated signal = false
  /\ PostAnalysis.severity signal == 2
  /\ ~ PostAnalysis.severity signal == 0.
Proof.
  vm_compute. repeat split; discriminate.
Qed.

End Severity.

(* ================================================================== *)
(** * The image classifier on a blue image *)
(* ================================================================== *)

Section ImageScenario.

Import SatelliteDetection SatelliteImageAnalyzer.
Local Open Scope Q_scope.

(** C8. An image whose channel means are r = 0.2, g = 0.2 and b = 0.6
    (every pixel of the canvas being (51, 51, 153)) is classified [flood]
    with confidence min(0.95, 0.5 + (0.6 - 0.2) * 2) = 0.95, water index
    clamp01(0.6 - 0.2 + 0.3) = 0.7 and affected area
    10 * (1 + 0.7 * 50) = 360; the binary64 evaluation of the same code
    gives the same four results. *)
Theorem blue_image_is_a_flood :
  (let means := meanChannels (uniformImage 51 51 153) in
   fst (fst means) == 0.2 /\ snd (fst means) == 0.2 /\ snd means == 0.6)
  /\ fst (classify 0.2 0.2 0.6) = flood
  /\ snd (classify 0.2 0.2 0.6) == Qmin 0.95 (0.5 + (0.6 - 0.2) * 2)
  /\ snd (classify 0.2 0.2 0.6) == 0.95
  /\ waterDetection (metrics 0.2 0.2 0.6)
     == Specified.clamp01 (0.6 - 0.2 + 0.3)
  /\ waterDetection (metrics 0.2 0.2 0.6) == 0.7
  /\ estimateAffectedArea (metrics 0.2 0.2 0.6) flood == 10 * (1 + 0.7 * 50)
  /\ estimateAffectedArea (metrics 0.2 0.2 0.6) flood == 360
  /\ (forall w : World,
       let detection := fst (analyzeImage (uniformImage 51 51 153) w) in
       disasterType detection = flood
       /\ confidence detection == 0.95
       /\ waterDetection (analysisOf detection) == 0.7
       /\ affectedArea detection == 360)
  /\ Binary64.meanChannels (uniformImage 51 51 153)
     = (Binary64.d0_2, Binary64.d0_2, Binary64.d0_6)
  /\ Binary64.classify Binary64.d0_2 Binary64.d0_2 Binary64.d0_6
     = (flood, Binary64.d0_95)
  /\ Binary64.waterDetection
       (Binary64.metrics Binary64.d0_2 Binary64.d0_2 Binary64.d0_6)
     = Binary64.d0_7
  /\ Binary64.estimateAffectedArea
       (Binary64.metrics Binary64.d0_2 Binary64.d0_2 Binary64.d0_6) flood
     = Binary64.ofInt 360.
Proof.
  vm_compute. repeat split; reflexivity.
Qed.

End ImageScenario.

(* ================================================================== *)
(** * Coordinate lookup *)
(* ================================================================== *)

Section Coordinates.

Import SocialMediaAnalyzer.
Local Open Scope string_scope.
Local Open Scope Q_scope.





End Coordinates.

(* ================================================================== *)
(** * The theorems at work on sample batches *)
(* ================================================================== *)

Section Samples.

Import SocialMediaAnalyzer.
Local Open Scope string_scope.
Local Open Scope list_scope.
Local Open Scope Q_scope.

(** Ten gloomy reports of a flood in Pune end in one alert of severity 5. *)
Lemma ten_reports_reach_severity_5_witness :
  exists a,
    values (aggregate gloomy tenFloodPosts (constantWorld 0.25)) = [a]
    /\ DisasterAlert.reportCount a = 10%nat
    /\ DisasterAlert.sentimentScore a < -10
    /\ DisasterAlert.severity a == 5.
Proof.
  eexists. split; [vm_compute; reflexivity|].
  split; [reflexivity|]. split; [reflexivity|].
  apply (ten_reports_reach_severity_5
           gloomy tenFloodPosts (constantWorld 0.25)).
  - vm_compute. left. reflexivity.
  - reflexivity.
  - reflexivity.
Defined.


(** The filter scenario: one report of medium urgency is not published;
    a second report for the same key makes the alert appear. *)
Example filter_scenario :
  fst (analyzePosts gloomy [postOf "flood help" (Some "Pune")]
                    (constantWorld 0.25)) = []
  /\ exists a,
       fst (analyzePosts gloomy
              [postOf "flood help" (Some "Pune");
               postOf "flooding" (Some "Pune")]
              (constantWorld 0.25)) = [a]
       /\ DisasterAlert.reportCount a = 2%nat
       /\ DisasterAlert.urgencyLevel a = medium.
Proof.
  split; [vm_compute; reflexivity|].
  eexists. split; [vm_compute; reflexivity|]. split; reflexivity.
Qed.

(** The text scenario of the specification. *)
Example text_scenario :
  let signal :=
    fst (analyzePost gloomy
           (postOf "URGENT URGENT SOS trapped need rescue, flooding in Mumbai"
                   None)
           (constantWorld 0.25)) in
  PostAnalysis.disasterType signal = Some flood
  /\ PostAnalysis.location signal = "Mumbai"
  /\ PostAnalysis.urgencyLevel signal = critical
  /\ PostAnalysis.keywords signal = ["flood"; "flooding"].
Proof.
  vm_compute. repeat split; reflexivity.
Qed.

End Samples.

(* ================================================================== *)
(** * More on the aggregator *)
(* ================================================================== *)

Section AggregatorFacts.

Import SocialMediaAnalyzer.
Local Open Scope Q_scope.

Variable sentimentScoreOf : string -> Q.

(** A property that new alerts have and merges keep holds of the whole
    map. *)
Lemma steps_all (P : DisasterAlert.t -> Prop) (batch : list SocialMediaPost.t) :
  (forall post c t l id population timestamp,
      In post batch -> signalOf post = Some (t, l) ->
      P (newAlert post (analysisWith sentimentScoreOf post c) t
                  id population timestamp)) ->
  (forall existing post c,
      In post batch -> P existing ->
      P (merge existing post (analysisWith sentimentScoreOf post c))) ->
  forall posts alerts alerts',
    incl posts batch ->
    Steps sentimentScoreOf posts alerts alerts' ->
    (forall key a, In (key, a) alerts -> P a) ->
    forall key a, In (key, a) alerts' -> P a.
Proof.
  intros New Merge posts alerts alerts' Incl St.
  induction St as [alerts|post posts alerts alerts' alerts'' S1 _ IH];
    intros All; [exact All|].
  apply IH; [intros p I; apply Incl; now right|].
  assert (I : In post batch) by (apply Incl; now left).
  destruct S1 as [Sig | t l c e Sig G | t l c id pop ts Sig G].
  - exact All.
  - intros key a H.
    destruct (In_update _ _ _ _ _ H) as [H'|(-> & e' & H' & ->)].
    + now apply (All key).
    + apply Merge; [exact I|]. eapply All. exact H'.
  - intros key a H. apply in_app_or in H.
    destruct H as [H|[[= <- <-]|[]]]; [now apply (All key)|].
    now apply (New _ _ _ l).
Qed.

Lemma aggregate_all (P : DisasterAlert.t -> Prop) posts w :
  (forall post c t l id population timestamp,
      In post posts -> signalOf post = Some (t, l) ->
      P (newAlert post (analysisWith sentimentScoreOf post c) t
                  id population timestamp)) ->
  (forall existing post c,
      In post posts -> P existing ->
      P (merge existing post (analysisWith sentimentScoreOf post c))) ->
  Forall P (values (aggregate sentimentScoreOf posts w)).
Proof.
  intros New Merge. apply Forall_forall. intros a H.
  apply in_map_iff in H. destruct H as ([k a'] & E & H). cbn in E. subst a'.
  apply (steps_all P posts New Merge posts [] _ (incl_refl _)
                   (aggregate_steps sentimentScoreOf posts w)
                   (fun _ _ F => match F with end) k a H).
Qed.

(** The sources of the entry of a key grow by the posts that carry it. *)
Lemma steps_sources posts alerts alerts' t l :
  Steps sentimentScoreOf posts alerts alerts' ->
  match get (keyOf t l) alerts, get (keyOf t l) alerts' with
  | Some a, Some a' =>
      DisasterAlert.sources a'
      = (DisasterAlert.sources a ++ filter (hasSignal t l) posts)%list
  | None, Some a' =>
      DisasterAlert.sources a' = filter (hasSignal t l) posts
  | None, None => filter (hasSignal t l) posts = []
  | Some _, None => False
  end.
Proof.
  induction 1 as [alerts|post posts alerts alerts' alerts'' S1 _ IH].
  - cbn [filter]. destruct (get _ alerts); [now rewrite app_nil_r|reflexivity].
  - pose proof (step_get sentimentScoreOf post alerts alerts' t l S1) as H.
    cbn [filter]. destruct (hasSignal t l post).
    + destruct (get (keyOf t l) alerts) as [a|].
      * destruct H as [c H]. rewrite H in IH.
        destruct (get (keyOf t l) alerts'') as [a''|]; [|exact IH].
        rewrite IH. cbn [merge setSeverity DisasterAlert.sources].
        now rewrite <- app_assoc.
      * destruct H as (c & id & pop & ts & H). rewrite H in IH.
        destruct (get (keyOf t l) alerts'') as [a''|]; [|contradiction].
        exact IH.
    + rewrite H in IH. exact IH.
Qed.

(** X1. The sources of every alert of the map are exactly the posts of
    the batch that carry the alert's key, in the order of the batch, and
    [reportCount] is their number. *)
Theorem sources_are_the_posts_of_the_key posts w :
  Forall (fun a =>
            DisasterAlert.sources a
            = filter (hasSignal (DisasterAlert.disasterType a)
                                (DisasterAlert.location a)) posts
            /\ DisasterAlert.reportCount a
               = List.length (DisasterAlert.sources a))
         (values (aggregate sentimentScoreOf posts w)).
Proof.
  apply Forall_forall. intros a H.
  destruct (aggregate_In_get sentimentScoreOf posts w a H) as [G _].
  pose proof (steps_sources posts [] _ (DisasterAlert.disasterType a)
                (DisasterAlert.location a)
                (aggregate_steps sentimentScoreOf posts w)) as S.
  pose proof (steps_get_None sentimentScoreOf posts [] _
                (DisasterAlert.disasterType a) (DisasterAlert.location a)
                (aggregate_steps sentimentScoreOf posts w) eq_refl) as C.
  rewrite get_nil, G in S. split; [exact S|].
  destruct (find _ posts) as [first|].
  - destruct C as (a' & rest & c & id & pop & ts & G' & _ & _ & R).
    rewrite G in G'. injection G' as <-. rewrite R, S. reflexivity.
  - destruct C as [G' _]. congruence.
Qed.

(** X2. When the sentiment score of every post of the batch lies between
    two bounds, so does the running [sentimentScore] of every alert. *)
Theorem running_sentiment_stays_within_bounds posts w lo hi :
  (forall post,
      In post posts ->
      lo <= sentimentOf sentimentScoreOf post <= hi) ->
  Forall (fun a => lo <= DisasterAlert.sentimentScore a <= hi)
         (values (aggregate sentimentScoreOf posts w)).
Proof.
  intros B. apply aggregate_all.
  - intros post c t l id pop ts I _. exact (B post I).
  - intros e post c I H. specialize (B post I).
    unfold sentimentOf in B.
    cbn [merge setSeverity DisasterAlert.sentimentScore analysisWith
         PostAnalysis.sentimentScore].
    split.
    + apply Qle_shift_div_l; [reflexivity|]. lra.
    + apply Qle_shift_div_r; [reflexivity|]. lra.
Qed.

Lemma calculateInitialSeverity_base u s km :
  urgencyBase u <= calculateInitialSeverity u s km <= 5.
Proof.
  unfold calculateInitialSeverity, urgencyBase.
  destruct u, (Js.ltb s (-5)), (3 <=? km)%nat; vm_compute;
    split; discriminate.
Qed.

Lemma calculateSeverity_mono alert :
  DisasterAlert.severity alert <= 5 ->
  DisasterAlert.severity alert <= calculateSeverity alert <= 5.
Proof.
  intros H. unfold calculateSeverity.
  match goal with |- _ <= Js.ceil ?x <= _ => set (y := x) end.
  assert (B : DisasterAlert.severity alert <= y <= 5).
  { subst y.
    destruct (10 <=? DisasterAlert.reportCount alert)%nat,
             (5 <=? DisasterAlert.reportCount alert)%nat,
             (Js.ltb (DisasterAlert.sentimentScore alert) (-10));
      qminmax; lra. }
  split.
  - eapply Qle_trans; [apply B|apply ceil_ge].
  - apply (ceil_le_inject y 5). apply B.
Qed.

Lemma aggregate_urgency_base posts w :
  Forall (fun a =>
            urgencyBase (DisasterAlert.urgencyLevel a)
            <= DisasterAlert.severity a <= 5)
         (values (aggregate sentimentScoreOf posts w)).
Proof.
  apply aggregate_all.
  - intros post c t l id pop ts _ _. apply calculateInitialSeverity_base.
  - intros e post c _ [L U].
    cbn [merge setSeverity DisasterAlert.severity
         DisasterAlert.urgencyLevel].
    match goal with
    | |- _ <= calculateSeverity ?x <= _ =>
        pose proof (calculateSeverity_mono x U) as M
    end.
    cbn [DisasterAlert.severity] in M. split; [|apply M].
    eapply Qle_trans; [exact L|apply M].
Qed.

(** X3. The severity of an alert is never below the level its urgency
    starts from (critical 5, high 4, medium 3, low 2) and never above 5;
    so an alert of critical urgency has severity 5 exactly. *)
Theorem severity_is_at_least_the_urgency_base posts w :
  Forall (fun a =>
            urgencyBase (DisasterAlert.urgencyLevel a)
            <= DisasterAlert.severity a <= 5
            /\ (DisasterAlert.urgencyLevel a = critical ->
                DisasterAlert.severity a == 5))
         (values (aggregate sentimentScoreOf posts w)).
Proof.
  eapply Forall_impl; [|apply aggregate_urgency_base]. cbv beta.
  intros a [L U]. split; [now split|]. intros C. rewrite C in L. cbn in L.
  now apply Qle_antisym.
Qed.

(** What holds of an entry and is kept by merges holds of the entry
    later, and relates the two. *)
Lemma steps_get_Some_rel (P : DisasterAlert.t -> Prop)
      (R : DisasterAlert.t -> DisasterAlert.t -> Prop) :
  (forall a, R a a) ->
  (forall a b c, R a b -> R b c -> R a c) ->
  (forall existing post signal,
      P existing ->
      P (merge existing post signal) /\ R existing (merge existing post signal)) ->
  forall posts alerts alerts' t l a,
    Steps sentimentScoreOf posts alerts alerts' ->
    get (keyOf t l) alerts = Some a -> P a ->
    exists a', get (keyOf t l) alerts' = Some a' /\ P a' /\ R a a'.
Proof.
  intros Refl Trans Merge posts alerts alerts' t l a St. revert a.
  induction St as [alerts|post posts alerts alerts' alerts'' S1 _ IH];
    intros a G Pa.
  - exists a. auto.
  - pose proof (step_get sentimentScoreOf post alerts alerts' t l S1) as H.
    rewrite G in H. destruct (hasSignal t l post).
    + destruct H as [c H]. destruct (Merge a post (analysisWith sentimentScoreOf post c) Pa) as [Pm Rm].
      destruct (IH _ H Pm) as (a' & G' & Pa' & Ra').
      exists a'. eauto.
    + apply (IH _ H Pa).
Qed.

(** X4. Once an alert stands in the map, further posts never lower its
    severity nor its [reportCount], and its severity stays at most 5. *)
Theorem severity_never_decreases posts more w t l a :
  get (keyOf t l) (aggregate sentimentScoreOf posts w) = Some a ->
  exists a',
    get (keyOf t l) (aggregate sentimentScoreOf (posts ++ more) w) = Some a'
    /\ DisasterAlert.severity a <= DisasterAlert.severity a'
    /\ DisasterAlert.severity a' <= 5
    /\ (DisasterAlert.reportCount a <= DisasterAlert.reportCount a')%nat.
Proof.
  intros G.
  assert (U : DisasterAlert.severity a <= 5).
  { pose proof (aggregate_urgency_base posts w) as F.
    rewrite Forall_forall in F. apply F.
    apply in_map_iff. exists (keyOf t l, a). split; [reflexivity|].
    now apply get_In. }
  destruct (steps_get_Some_rel
              (fun x => DisasterAlert.severity x <= 5)
              (fun x y => DisasterAlert.severity x <= DisasterAlert.severity y
                          /\ (DisasterAlert.reportCount x
                              <= DisasterAlert.reportCount y)%nat))
    with (posts := more) (alerts := aggregate sentimentScoreOf posts w)
         (alerts' := aggregate sentimentScoreOf (posts ++ more) w)
         (t := t) (l := l) (a := a)
    as (a' & G' & P' & S' & C').
  - intros x. split; [apply Qle_refl|lia].
  - intros x y z [A1 A2] [B1 B2]. split; [eapply Qle_trans; eassumption|lia].
  - intros e post signal H.
    cbn [merge setSeverity DisasterAlert.severity DisasterAlert.reportCount].
    match goal with
    | |- context [calculateSeverity ?x] =>
        pose proof (calculateSeverity_mono x H) as M
    end.
    cbn [DisasterAlert.severity] in M. destruct M as [M1 M2].
    split; [exact M2|]. split; [exact M1|lia].
  - apply aggregate_app_steps.
  - exact G.
  - exact U.
  - exists a'. auto.
Qed.

(** X5. Of the alerts [analyzePosts] publishes, [analyzeSocialMedia] turns
    into a disaster every one of critical or high urgency, every one with
    a single report and every one with six reports or more; one it does
    not turn into a disaster has medium or low urgency and two to five
    reports. *)
Theorem which_published_alerts_create_disasters posts w :
  Forall (fun a =>
            alertCreatesDisaster a = true
            \/ ((DisasterAlert.urgencyLevel a = medium
                 \/ DisasterAlert.urgencyLevel a = low)
                /\ (2 <= DisasterAlert.reportCount a <= 5)%nat))
         (fst (analyzePosts sentimentScoreOf posts w)).
Proof.
  apply Forall_forall. intros a H. rewrite analyzePosts_eq in H.
  apply (Permutation_in _ (sort_perm _ _)) in H.
  apply filter_In in H. destruct H as [H Pub].
  pose proof (aggregate_urgency_base posts w) as F.
  rewrite Forall_forall in F. destruct (F a H) as [B _].
  destruct (aggregate_In_get sentimentScoreOf posts w a H)
    as [_ [_ _ (n & E & Fl) _]].
  apply published_iff in Pub. unfold alertCreatesDisaster.
  assert (Four : 4 <= DisasterAlert.severity a ->
                 Js.leb 4 (DisasterAlert.severity a) = true)
    by (intros L; now apply Qle_bool_iff).
  destruct (DisasterAlert.urgencyLevel a) eqn:U; cbn [UrgencyLevel_eqb orb].
  - now left.
  - left. apply Four. exact B.
  - destruct Pub as [Pub|Pub]; [|discriminate].
    destruct (Nat.le_gt_cases 6 (DisasterAlert.reportCount a)) as [L|L].
    + left. apply Four. rewrite E. change 4 with (inject_Z 4).
      rewrite <- Zle_Qle. unfold severityFloor in Fl.
      destruct (Nat.ltb_spec (DisasterAlert.reportCount a) 5); lia.
    + right. split; [now left|lia].
  - destruct Pub as [Pub|Pub]; [|discriminate].
    destruct (Nat.le_gt_cases 6 (DisasterAlert.reportCount a)) as [L|L].
    + left. apply Four. rewrite E. change 4 with (inject_Z 4).
      rewrite <- Zle_Qle. unfold severityFloor in Fl.
      destruct (Nat.ltb_spec (DisasterAlert.reportCount a) 5); lia.
    + right. split; [now right|lia].
Qed.

End AggregatorFacts.

(* ================================================================== *)
(** * More on the text analyzer *)
(* ================================================================== *)

Section TextFacts.

Import SocialMediaAnalyzer.
Local Open Scope string_scope.

Lemma stringForall_app P s1 s2 :
  stringForall P (s1 ++ s2) = stringForall P s1 && stringForall P s2.
Proof.
  induction s1 as [|c s1 IH]; cbn; [reflexivity|].
  now rewrite IH, andb_assoc.
Qed.

(** After lowercasing and blanking, a character is a token character or
    white space. *)
Lemma blanked_char c :
  let c' := Js.lowerChar c in
  let b := if Js.isWordChar c' || Js.isSpace c' then c' else " "%char in
  tokenChar b || Js.isSpace b = true.
Proof.
  destruct c as [[] [] [] [] [] [] [] []]; reflexivity.
Qed.

Lemma blanked_text s :
  stringForall (fun c => tokenChar c || Js.isSpace c)
               (Js.blankPunctuation (Js.toLowerCase s)) = true.
Proof.
  induction s as [|c s IH]; [reflexivity|].
  cbn [Js.toLowerCase Js.blankPunctuation stringForall].
  rewrite IH, andb_true_r. apply blanked_char.
Qed.

Lemma splitSpacesFrom_tokens s : forall cur inGap,
  stringForall tokenChar cur = true ->
  stringForall (fun c => tokenChar c || Js.isSpace c) s = true ->
  Forall (fun t => stringForall tokenChar t = true)
         (Js.splitSpacesFrom cur inGap s).
Proof.
  induction s as [|c s IH]; intros cur inGap C S; cbn [Js.splitSpacesFrom].
  - now constructor.
  - cbn [stringForall] in S. apply andb_true_iff in S. destruct S as [Sc S].
    destruct (Js.isSpace c) eqn:Sp.
    + destruct inGap; [now apply IH|].
      constructor; [exact C|]. now apply IH.
    + apply IH; [|exact S]. rewrite stringForall_app, C. cbn.
      rewrite orb_false_r in Sc. now rewrite Sc.
Qed.

(** X6. Every token [tokenize] returns is non-empty and made of
    lower-case letters, digits and underscores only: no white space, no
    punctuation, no capital letter. *)
Theorem tokens_are_lowercase_words text :
  Forall (fun t => t <> "" /\ stringForall tokenChar t = true)
         (tokenize text).
Proof.
  unfold tokenize. apply Forall_forall. intros t H.
  apply filter_In in H. destruct H as [H L]. split.
  - intros ->. discriminate.
  - clear L. revert t H. apply Forall_forall.
    apply splitSpacesFrom_tokens; [reflexivity|apply blanked_text].
Qed.

Lemma capitalize_empty s : Js.capitalize s = "" -> s = "".
Proof. destruct s; [reflexivity|discriminate]. Qed.

Lemma firstCityIn_found text cities name :
  firstCityIn text cities = Some name ->
  exists before city after,
    cities = (before ++ city :: after)%list
    /\ Js.includes text city = true
    /\ Forall (fun c => Js.includes text c = false) before
    /\ name = Js.capitalize city.
Proof.
  induction cities as [|city cities IH]; [discriminate|].
  cbn [firstCityIn]. destruct (Js.includes text city) eqn:I.
  - intros [= <-]. exists [], city, cities. repeat split; auto.
  - intros H. destruct (IH H) as (before & c & after & -> & Ic & F & ->).
    exists (city :: before), c, after. repeat split; auto.
Qed.

Lemma firstCityIn_exists text cities :
  existsb (Js.includes text) cities = true ->
  exists name, firstCityIn text cities = Some name.
Proof.
  induction cities as [|city cities IH]; [discriminate|].
  cbn [existsb firstCityIn]. destruct (Js.includes text city).
  - intros _. now eexists.
  - exact IH.
Qed.

Lemma matchWordThenLetters_nonempty word s w :
  Js.matchWordThenLetters word s = Some w -> w <> "".
Proof.
  induction s as [|c s IH]; cbn [Js.matchWordThenLetters].
  - destruct (String.prefix _ _); [|discriminate].
    destruct (Js.takeLetters _); [discriminate|].
    intros [= <-]. discriminate.
  - destruct (String.prefix _ _).
    + destruct (Js.takeLetters _) eqn:T; [exact IH|].
      intros [= <-]. discriminate.
    + exact IH.
Qed.

Lemma firstPatternIn_nonempty text patterns name :
  firstPatternIn text patterns = Some name -> name <> "".
Proof.
  induction patterns as [|p patterns IH]; [discriminate|].
  cbn [firstPatternIn].
  destruct (Js.matchWordThenLetters p text) as [w|] eqn:M; [|exact IH].
  intros [= <-] E. apply capitalize_empty in E.
  now apply (matchWordThenLetters_nonempty _ _ _ M).
Qed.

Lemma extractLocation_nonempty text provided :
  extractLocation text provided <> "".
Proof.
  unfold extractLocation. destruct provided as [[|c l]|]; try discriminate.
  all: destruct (firstCityIn text (map fst indianCities)) as [city|] eqn:C.
  all: try (destruct (firstCityIn_found _ _ _ C)
              as (before & c & after & E & _ & _ & ->);
            intros N; apply capitalize_empty in N; subst c;
            assert (I : In "" (map fst indianCities))
              by (rewrite E; apply in_elt);
            cbn in I; repeat (destruct I as [I|I]; [discriminate|]);
            contradiction).
  all: destruct (firstPatternIn text locationPatterns) as [w|] eqn:P;
    [now apply (firstPatternIn_nonempty _ _ _ P)|discriminate].
Qed.

Variable sentimentScoreOf : string -> Q.

(** X7. [extractLocation] never returns the empty string, and a
    non-empty location field of the post is returned as it is, whatever
    the text says; so no alert of the map has an empty location. *)
Theorem location_is_never_empty :
  (forall text provided, extractLocation text provided <> "")
  /\ (forall text c l, extractLocation text (Some (String c l)) = String c l)
  /\ (forall posts w,
         Forall (fun a => DisasterAlert.location a <> "")
                (values (aggregate sentimentScoreOf posts w))).
Proof.
  split; [exact extractLocation_nonempty|]. split; [reflexivity|].
  intros posts w. apply aggregate_all.
  - intros post c t l id pop ts _ _. apply extractLocation_nonempty.
  - intros e post c _ H. exact H.
Qed.

Lemma gazetteer_round_trip city lat lng :
  In (city, (lat, lng)) indianCities ->
  cityEntry (Js.toLowerCase (Js.capitalize city)) = Some (LatLng lat lng).
Proof.
  intros H. cbn [In indianCities] in H.
  repeat (destruct H as [[= <- <- <-]|H]; [reflexivity|]).
  contradiction.
Qed.

(** X8. A post without a location field whose lowercased text names a
    gazetteer city is located at the first such city of the table,
    capitalized, and gets that city's fixed coordinates without any draw
    of [Math.random()]. *)
Theorem city_in_text_fixes_the_coordinates post w :
  SocialMediaPost.location post = None ->
  existsb (Js.includes (Js.toLowerCase (SocialMediaPost.text post)))
          (map fst indianCities) = true ->
  exists before city lat lng after,
    indianCities = (before ++ (city, (lat, lng)) :: after)%list
    /\ Js.includes (Js.toLowerCase (SocialMediaPost.text post)) city = true
    /\ Forall (fun e =>
                 Js.includes (Js.toLowerCase (SocialMediaPost.text post))
                             (fst e) = false) before
    /\ let signal := fst (analyzePost sentimentScoreOf post w) in
       PostAnalysis.location signal = Js.capitalize city
       /\ PostAnalysis.coordinates signal = LatLng lat lng
       /\ snd (analyzePost sentimentScoreOf post w) = w.
Proof.
  intros None_ Ex.
  destruct (firstCityIn_exists _ _ Ex) as [name F].
  destruct (firstCityIn_found _ _ _ F) as (bs & city & as_ & E & I & B & ->).
  apply map_eq_app in E. destruct E as (before & rest & E & <- & E2).
  destruct rest as [|[city' [lat lng]] after]; [discriminate|].
  cbn [map fst] in E2. injection E2 as -> <-.
  exists before, city, lat, lng, after.
  split; [exact E|]. split; [exact I|].
  split; [now apply Forall_map in B|].
  assert (In_ : In (city, (lat, lng)) indianCities)
    by (rewrite E; apply in_elt).
  pose proof (gazetteer_round_trip _ _ _ In_) as RT.
  cbv zeta. rewrite analyzePost_eq. cbv zeta. cbn [fst snd].
  unfold analysisWith.
  cbn [PostAnalysis.location PostAnalysis.coordinates].
  assert (L : extractLocation (Js.toLowerCase (SocialMediaPost.text post))
                              (SocialMediaPost.location post)
              = Js.capitalize city).
  { unfold extractLocation. now rewrite None_, F. }
  rewrite L. unfold getCoordinates. rewrite RT. auto.
Qed.

End TextFacts.

(* ================================================================== *)
(** * What the random draws decide *)
(* ================================================================== *)

Section Draws.

Import SocialMediaAnalyzer.
Local Open Scope Q_scope.

Variable sentimentScoreOf : string -> Q.

Lemma keeps_ret {A} (x : A) : keepsSource (ret x).
Proof. intros w. reflexivity. Qed.

Lemma keeps_bind {A B} (c : M A) (f : A -> M B) :
  keepsSource c -> (forall x, keepsSource (f x)) -> keepsSource (bind c f).
Proof.
  intros Hc Hf w. unfold bind. specialize (Hc w).
  destruct (c w) as [x w']. cbn [snd] in Hc. now rewrite Hf.
Qed.

Lemma keeps_mathRandom : keepsSource mathRandom.
Proof. intros w. reflexivity. Qed.

Lemma keeps_dateNow : keepsSource dateNow.
Proof. intros w. reflexivity. Qed.

Lemma keeps_getCoordinates location : keepsSource (getCoordinates location).
Proof.
  unfold getCoordinates. destruct (cityEntry _); [apply keeps_ret|].
  repeat (apply keeps_bind; [apply keeps_mathRandom|intros ?]).
  apply keeps_ret.
Qed.

Lemma keeps_analyzePost post : keepsSource (analyzePost sentimentScoreOf post).
Proof.
  intros w. rewrite analyzePost_eq. cbn [snd]. apply keeps_getCoordinates.
Qed.

Lemma keeps_estimateAffectedPopulation location :
  keepsSource (estimateAffectedPopulation location).
Proof.
  unfold estimateAffectedPopulation. destruct (existsb _ _);
    (apply keeps_bind; [apply keeps_mathRandom|intros ?; apply keeps_ret]).
Qed.

Lemma keeps_create post signal t : keepsSource (create post signal t).
Proof.
  unfold create.
  apply keeps_bind; [apply keeps_dateNow|intros ?].
  apply keeps_bind; [apply keeps_mathRandom|intros ?].
  apply keeps_bind; [apply keeps_estimateAffectedPopulation|intros ?].
  apply keeps_bind; [apply keeps_dateNow|intros ?]. apply keeps_ret.
Qed.

Lemma unitDraws_kept {A} (c : M A) w :
  keepsSource c -> unitDraws w -> unitDraws (snd (c w)).
Proof. intros K U n. rewrite K. apply U. Qed.

Lemma floor_scaled_draw (u scale : Q) (k : Z) :
  0 <= u < 1 -> scale == inject_Z k -> (0 < k)%Z ->
  (0 <= Qfloor (u * scale) < k)%Z.
Proof.
  intros [L U] E K.
  assert (Kq : 0 < scale) by (rewrite E; change 0 with (inject_Z 0);
                              now rewrite <- Zlt_Qlt).
  split.
  - change 0%Z with (Qfloor 0). apply Qfloor_resp_le.
    apply Qmult_le_0_compat; lra.
  - rewrite Zlt_Qlt. eapply Qle_lt_trans; [apply Qfloor_le|].
    rewrite <- E. setoid_replace scale with (1 * scale) at 2 by ring.
    apply Qmult_lt_compat_r; lra.
Qed.

Lemma estimate_is_populationEstimate location w :
  unitDraws w ->
  populationEstimate location (fst (estimateAffectedPopulation location w)).
Proof.
  intros U. unfold estimateAffectedPopulation, populationEstimate,
              namesMajorCity.
  destruct (existsb _ majorCities); unfold bind, mathRandom, ret;
    cbn [fst]; unfold Js.floor.
  - destruct (floor_scaled_draw (randoms w (randPos w)) 50000 50000
                (U _) (Qeq_refl _) eq_refl) as [A B].
    exists (Qfloor (randoms w (randPos w) * 50000) + 10000)%Z.
    split; [|lia]. rewrite inject_Z_plus. reflexivity.
  - destruct (floor_scaled_draw (randoms w (randPos w)) 10000 10000
                (U _) (Qeq_refl _) eq_refl) as [A B].
    exists (Qfloor (randoms w (randPos w) * 10000) + 1000)%Z.
    split; [|lia]. rewrite inject_Z_plus. reflexivity.
Qed.

Lemma create_population post signal t w :
  unitDraws w ->
  populationEstimate
    (PostAnalysis.location signal)
    (DisasterAlert.affectedPopulation (fst (create post signal t w))).
Proof.
  intros U. unfold create, bind, dateNow, mathRandom.
  match goal with
  | |- context [estimateAffectedPopulation ?l ?w'] =>
      assert (E : populationEstimate l (fst (estimateAffectedPopulation l w')))
        by (apply estimate_is_populationEstimate; intros n; apply U);
      destruct (estimateAffectedPopulation l w') as [pop w3]
  end.
  exact E.
Qed.

Lemma create_location post signal t w :
  DisasterAlert.location (fst (create post signal t w))
  = PostAnalysis.location signal.
Proof.
  unfold create, bind, dateNow, mathRandom, estimateAffectedPopulation.
  now destruct (existsb _ _).
Qed.

Lemma processPosts_population posts : forall alerts w,
  unitDraws w ->
  Forall (fun a => populationEstimate (DisasterAlert.location a)
                     (DisasterAlert.affectedPopulation a))
         (values alerts) ->
  Forall (fun a => populationEstimate (DisasterAlert.location a)
                     (DisasterAlert.affectedPopulation a))
         (values (fst (processPosts sentimentScoreOf alerts posts w))).
Proof.
  induction posts as [|post posts IH]; intros alerts w U F; [exact F|].
  cbn [processPosts]. unfold bind at 1.
  destruct (processPost sentimentScoreOf alerts post w) as [alerts' w']
    eqn:E.
  assert (H : unitDraws w'
              /\ Forall (fun a => populationEstimate
                                    (DisasterAlert.location a)
                                    (DisasterAlert.affectedPopulation a))
                        (values alerts')); [|now apply IH].
  clear IH. revert E. unfold processPost, bind at 1.
  pose proof (unitDraws_kept _ w (keeps_analyzePost post) U) as U1.
  destruct (analyzePost sentimentScoreOf post w) as [signal w1].
  cbn [snd] in U1.
  destruct (PostAnalysis.isDisasterRelated signal);
    [|intros [= <- <-]; now split].
  destruct (PostAnalysis.disasterType signal) as [t|];
    [|intros [= <- <-]; now split].
  destruct (get _ alerts) as [e|].
  - intros [= <- <-]. split; [exact U1|].
    apply Forall_forall. intros a H. apply in_map_iff in H.
    destruct H as ([k a'] & Ea & H). cbn in Ea. subst a'.
    rewrite Forall_forall in F.
    destruct (In_update _ _ _ _ _ H) as [H'|(-> & e' & H' & ->)].
    + apply F. apply in_map_iff. now exists (k, a).
    + cbn [merge setSeverity DisasterAlert.location
           DisasterAlert.affectedPopulation].
      apply F. apply in_map_iff. eexists. split; [|exact H']. reflexivity.
  - unfold bind, ret.
    pose proof (create_population post signal t w1 U1) as C.
    pose proof (unitDraws_kept _ w1 (keeps_create post signal t) U1) as U2.
    pose proof (create_location post signal t w1) as L.
    destruct (create post signal t w1) as [alert w2].
    cbn [fst snd] in *. intros [= <- <-]. split; [exact U2|].
    unfold values. rewrite map_app. apply Forall_app. split; [exact F|].
    constructor; [|constructor]. cbn [snd]. now rewrite L.
Qed.

(** X9. When every draw of [Math.random()] lies in [0,1), the population
    [estimateAffectedPopulation] returns is a whole number from 10000 to
    59999 for a location that names a major city and from 1000 to 10999
    for any other, at the cost of one draw; and so is the
    [affectedPopulation] of every alert of the map, for its location. *)
Theorem affected_population_is_within_range w :
  unitDraws w ->
  (forall location,
      populationEstimate location
                         (fst (estimateAffectedPopulation location w))
      /\ randPos (snd (estimateAffectedPopulation location w))
         = S (randPos w))
  /\ (forall posts,
         Forall (fun a => populationEstimate
                            (DisasterAlert.location a)
                            (DisasterAlert.affectedPopulation a))
                (values (aggregate sentimentScoreOf posts w))).
Proof.
  intros U. split.
  - intros location. split; [now apply estimate_is_populationEstimate|].
    unfold estimateAffectedPopulation. now destruct (existsb _ _).
  - intros posts. apply processPosts_population; [exact U|constructor].
Qed.

End Draws.

(* ================================================================== *)
(** * More on the image analyzer *)
(* ================================================================== *)

Section ImageFacts.

Import SatelliteDetection SatelliteImageAnalyzer.
Local Open Scope Q_scope.

Lemma ltb_true x y : Js.ltb x y = true -> x < y.
Proof. destruct (ltb_spec x y); [auto|discriminate]. Qed.

Lemma ltb_false x y : Js.ltb x y = false -> y <= x.
Proof. destruct (ltb_spec x y); [discriminate|intros _; lra]. Qed.

(** Split a conjunction of comparisons that holds into its facts. *)
Ltac comparisons :=
  repeat match goal with
  | H : _ && _ = true |- _ => apply andb_true_iff in H; destruct H
  | H : Js.ltb _ _ = true |- _ => apply ltb_true in H
  end.

(** Take the next branch of a cascade of [if]s. *)
Ltac next_rule :=
  match goal with
  | |- context [if ?c then _ else _] =>
      let C := fresh "C" in destruct c eqn:C
  end.




Lemma classify_rule r g b :
  match fst (classify r g b) with
  | flood => r < b /\ g < b /\ 0.4 < b
  | fire => g < r /\ b < r /\ 0.5 < r
  | _ => True
  end.
Proof.
  unfold classify.
  repeat (next_rule; [comparisons; cbn [fst]; auto|]).
  exact I.
Qed.

(** X11. The four indices [analyzeImage] derives from the channel means
    lie between 0 and 1; for means between 0 and 1, an image classified
    as a flood has a water index above 0.3, hence an affected area above
    160, and an image classified as a fire has a fire intensity above
    0.35, hence an affected area above 115. *)
Theorem classified_images_have_high_indices r g b :
  inUnit r -> inUnit g -> inUnit b ->
  (inUnit (vegetationIndex (metrics r g b))
   /\ inUnit (waterDetection (metrics r g b))
   /\ inUnit (buildingDamage (metrics r g b))
   /\ inUnit (fireIntensity (metrics r g b)))
  /\ (fst (classify r g b) = flood ->
      0.3 < waterDetection (metrics r g b)
      /\ 160 < estimateAffectedArea (metrics r g b) flood)
  /\ (fst (classify r g b) = fire ->
      0.35 < fireIntensity (metrics r g b)
      /\ 115 < estimateAffectedArea (metrics r g b) fire).
Proof.
  unfold inUnit. intros R G B. pose proof (classify_rule r g b) as Rule.
  unfold metrics, estimateAffectedArea, Qdiv.
  cbn [vegetationIndex waterDetection buildingDamage fireIntensity].
  change (/ 2) with (1 # 2). cbv zeta.
  split; [repeat split; qminmax; lra|].
  split; intros E; rewrite E in Rule; split; qminmax; lra.
Qed.

(** X12. The affected area is 0 for the type [none] and at least the base
    area of 10 sq km for every other type; with indices between 0 and 1
    it is at most 510 for [flood], 310 for [fire], 410 for [earthquake]
    and [hurricane] and 260 for [landslide]. *)
Theorem affected_area_range a type :
  inUnit (waterDetection a) -> inUnit (buildingDamage a) ->
  inUnit (fireIntensity a) ->
  match type with
  | none => estimateAffectedArea a type == 0
  | flood => 10 <= estimateAffectedArea a type <= 510
  | fire => 10 <= estimateAffectedArea a type <= 310
  | earthquake => 10 <= estimateAffectedArea a type <= 410
  | hurricane => 10 <= estimateAffectedArea a type <= 410
  | landslide => 10 <= estimateAffectedArea a type <= 260
  end.
Proof.
  unfold inUnit, estimateAffectedArea. intros W B F.
  destruct type; cbv zeta; lra.
Qed.




Lemma sumChannels_bounds n : forall data acc,
  List.length data = (4 * n)%nat -> Forall isByte data ->
  let sums := sumChannels data acc in
  (fst (fst acc) <= fst (fst sums) <= fst (fst acc) + 255 * Js.ofNat n)
  /\ (snd (fst acc) <= snd (fst sums) <= snd (fst acc) + 255 * Js.ofNat n)
  /\ (snd acc <= snd sums <= snd acc + 255 * Js.ofNat n).
Proof.
  induction n as [|n IH]; intros data acc L F.
  - destruct data; [|discriminate]. cbn. change (Js.ofNat 0) with 0.
    repeat split; lra.
  - destruct data as [|r0 [|g0 [|b0 [|a0 rest]]]];
      try (exfalso; cbn [List.length] in L; lia).
    destruct acc as [[r g] b].
    apply Forall_cons_iff in F. destruct F as [Fr F].
    apply Forall_cons_iff in F. destruct F as [Fg F].
    apply Forall_cons_iff in F. destruct F as [Fb F].
    apply Forall_cons_iff in F. destruct F as [_ F4].
    cbn [sumChannels]. cbv zeta.
    assert (L' : List.length rest = (4 * n)%nat)
      by (cbn [List.length] in L; lia).
    specialize (IH rest (r + inject_Z r0, g + inject_Z g0, b + inject_Z b0)
                   L' F4).
    cbv zeta in IH. cbn [fst snd] in *.
    assert (S_ : Js.ofNat (S n) == Js.ofNat n + 1).
    { unfold Js.ofNat. rewrite Nat2Z.inj_succ, <- Z.add_1_r.
      now rewrite inject_Z_plus. }
    unfold isByte in *.
    assert (Br : 0 <= inject_Z r0 <= 255)
      by (change 0 with (inject_Z 0); change 255 with (inject_Z 255);
          rewrite <- !Zle_Qle; lia).
    assert (Bg : 0 <= inject_Z g0 <= 255)
      by (change 0 with (inject_Z 0); change 255 with (inject_Z 255);
          rewrite <- !Zle_Qle; lia).
    assert (Bb : 0 <= inject_Z b0 <= 255)
      by (change 0 with (inject_Z 0); change 255 with (inject_Z 255);
          rewrite <- !Zle_Qle; lia).
    rewrite S_. repeat split; lra.
Qed.

Lemma mean_in_unit (s pixels : Q) :
  0 < pixels -> 0 <= s <= 255 * pixels -> inUnit (s / pixels / 255).
Proof.
  intros P [L U]. split.
  - apply Qle_shift_div_l; [reflexivity|]. rewrite Qmult_0_l.
    apply Qle_shift_div_l; [exact P|]. now rewrite Qmult_0_l.
  - apply Qle_shift_div_r; [reflexivity|]. rewrite Qmult_1_l.
    now apply Qle_shift_div_r.
Qed.

(** X14. For the bytes of a canvas of at least one pixel, four to a
    pixel, the three channel means lie between 0 and 1. *)
Theorem channel_means_are_within_unit data n :
  List.length data = (4 * S n)%nat -> Forall isByte data ->
  let means := meanChannels data in
  inUnit (fst (fst means)) /\ inUnit (snd (fst means)) /\ inUnit (snd means).
Proof.
  intros L F. unfold meanChannels.
  pose proof (sumChannels_bounds (S n) data (0, 0, 0) L F) as B.
  cbv zeta in B. cbn [fst snd] in B.
  destruct (sumChannels data (0, 0, 0)) as [[r g] b]. cbn [fst snd] in *.
  assert (P : Js.ofNat (List.length data) / 4 == Js.ofNat (S n)).
  { rewrite L. unfold Js.ofNat. rewrite Nat2Z.inj_mul, inject_Z_mult.
    change (inject_Z (Z.of_nat 4)) with 4. field. }
  assert (Pos : 0 < Js.ofNat (S n)).
  { unfold Js.ofNat. change 0 with (inject_Z 0). rewrite <- Zlt_Qlt. lia. }
  destruct B as (Br & Bg & Bb).
  repeat split; rewrite P; apply mean_in_unit; try exact Pos; lra.
Qed.




End ImageFacts.

(* ================================================================== *)
(** * The mock posts *)
(* ================================================================== *)

Section MockFacts.

Import SocialMediaAnalyzer MockPosts.
Local Open Scope Q_scope.

Variable toISOString : Z -> string.

Lemma keeps_pick {A} (table : list A) : keepsSource (pick table).
Proof.
  unfold pick. apply keeps_bind; [apply keeps_mathRandom|intros ?].
  apply keeps_ret.
Qed.

Lemma pick_unit {A} (table : list A) w :
  unitDraws w -> table <> [] ->
  exists x,
    fst (pick table w) = Some x /\ In x table
    /\ unitDraws (snd (pick table w)).
Proof.
  intros U N. unfold pick, bind, mathRandom, ret. cbn [fst snd].
  assert (L : (0 < Z.of_nat (List.length table))%Z)
    by (destruct table; [contradiction|cbn [List.length]; lia]).
  destruct (floor_scaled_draw (randoms w (randPos w))
              (Js.ofNat (List.length table)) _ (U _) (Qeq_refl _) L)
    as [Lo Hi].
  destruct (Z.ltb_spec (Qfloor (randoms w (randPos w)
                                * Js.ofNat (List.length table))) 0);
    [lia|].
  destruct (nth_error table _) as [x|] eqn:E.
  - exists x. split; [reflexivity|]. split; [now apply nth_error_In in E|].
    intros n. apply U.
  - apply nth_error_None in E. lia.
Qed.

Lemma all_classifiedAsLabelled :
  forallb (fun t => forallb (classifiedAsLabelled t) indianCities) templates
  = true.
Proof. vm_compute. reflexivity. Qed.

Lemma gazetteer_name_nonempty city coordinates :
  In (city, coordinates) indianCities ->
  exists c l, Js.capitalize city = String c l.
Proof.
  intros H. cbn [In indianCities] in H.
  repeat (destruct H as [[= <- <-]|H]; [now eexists; eexists|]).
  contradiction.
Qed.

Lemma typeName_of_label d label :
  String.eqb (typeName d) label = true -> typeName d = label.
Proof. apply String.eqb_eq. Qed.

Lemma template_post_fromTemplate text type city lat lng id author stamp pf :
  In (text, type) templates ->
  In (city, (lat, lng)) indianCities ->
  fromTemplate
    (SocialMediaPost.mk id
       (replaceFirst "{location}" (Js.capitalize city) text)
       author (Some (Js.capitalize city)) (Some (lat, lng)) stamp pf).
Proof.
  intros T C.
  pose proof all_classifiedAsLabelled as A.
  rewrite forallb_forall in A. specialize (A _ T). cbv beta in A.
  rewrite forallb_forall in A. specialize (A _ C).
  unfold classifiedAsLabelled in A. cbn [fst snd] in A. cbv zeta in A.
  destruct (gazetteer_name_nonempty _ _ C) as (c & l & N).
  destruct (detectType _) as [[[d|] mm] kws] eqn:D; [|discriminate].
  apply andb_true_iff in A. destruct A as [Pos Lab].
  exists text, type, city, lat, lng, d.
  repeat split; auto using typeName_of_label.
  unfold signalOf. cbn [SocialMediaPost.text SocialMediaPost.location].
  rewrite D, Pos. unfold extractLocation. now rewrite N.
Qed.

Lemma keeps_mockPost i : keepsSource (mockPost toISOString i).
Proof.
  unfold mockPost.
  repeat first
    [ apply keeps_ret
    | apply keeps_bind;
      [first [apply keeps_pick|apply keeps_dateNow|apply keeps_mathRandom]
      |intros ?]
    | match goal with
      | |- keepsSource (match ?x with _ => _ end) => destruct x
      | |- keepsSource (let (_, _) := ?x in _) => destruct x
      end ].
Qed.

Lemma mockPost_fromTemplate i w :
  unitDraws w ->
  exists post,
    fst (mockPost toISOString i w) = Some post /\ fromTemplate post.
Proof.
  intros U. unfold mockPost. unfold bind at 1.
  destruct (pick_unit templates w U ltac:(discriminate))
    as ([text type] & E1 & I1 & U1).
  destruct (pick templates w) as [template w1]. cbn [fst snd] in E1, U1.
  subst template. unfold bind at 1.
  destruct (pick_unit indianCities w1 U1 ltac:(discriminate))
    as ([city [lat lng]] & E2 & I2 & U2).
  destruct (pick indianCities w1) as [location w2]. cbn [fst snd] in E2, U2.
  subst location. unfold bind, dateNow, mathRandom. cbv beta iota zeta.
  match goal with
  | |- context [pick platforms ?w'] =>
      assert (U3 : unitDraws w') by (intros n; apply U2);
      destruct (pick_unit platforms w' U3 ltac:(discriminate))
        as (pf & E3 & _ & U4);
      destruct (pick platforms w') as [platform w4]
  end.
  cbn [fst snd] in E3, U4. subst platform. unfold ret. cbn [fst snd].
  eexists. split; [reflexivity|].
  eapply template_post_fromTemplate; eassumption.
Qed.

Lemma mockPostsFrom_fromTemplate todo : forall i posts w,
  unitDraws w -> Forall fromTemplate posts ->
  exists result,
    fst (mockPostsFrom toISOString todo i posts w) = Some result
    /\ List.length result = (List.length posts + todo)%nat
    /\ Forall fromTemplate result.
Proof.
  induction todo as [|todo IH]; intros i posts w U F.
  - exists posts. repeat split; [cbn; lia|exact F].
  - cbn [mockPostsFrom]. unfold bind.
    destruct (mockPost_fromTemplate i w U) as (post & E & T).
    pose proof (unitDraws_kept _ w (keeps_mockPost i) U) as U'.
    destruct (mockPost toISOString i w) as [p w']. cbn [fst snd] in E, U'.
    subst p.
    destruct (IH (S i) (posts ++ [post])%list w' U') as (result & R & L & A).
    { apply Forall_app. split; [exact F|]. now repeat constructor. }
    exists result. split; [exact R|]. split; [|exact A].
    rewrite L, length_app. cbn. lia.
Qed.

(** X17. When every draw lies in [0,1), [generateMockPosts] returns as
    many posts as asked for, and each is one of the templates filled with
    the capitalized name of a gazetteer entry, carries that name and that
    entry's coordinates, and is classified by the analyzer as a disaster
    of its template's type at that location. *)
Theorem mock_posts_are_classified_as_labelled count w :
  unitDraws w ->
  exists posts,
    fst (generateMockPosts toISOString count w) = Some posts
    /\ List.length posts = count
    /\ Forall fromTemplate posts.
Proof.
  intros U. unfold generateMockPosts.
  destruct (mockPostsFrom_fromTemplate count 0 [] w U (Forall_nil _))
    as (result & R & L & A).
  exists result. auto.
Qed.

End MockFacts.

(* ================================================================== *)
(** * The callers: disasters and map bounds *)
(* ================================================================== *)

Section DisasterFacts.

Import SatelliteDetection SatelliteImageAnalyzer SatelliteDisaster.
Local Open Scope string_scope.
Local Open Scope Q_scope.

Variable toFixed : Q -> nat -> string.
Variable sqrt : Q -> Q.
Variable PI : Q.




End DisasterFacts.

Section AlertDisasters.

Import SocialMediaAnalyzer.
Local Open Scope Q_scope.

Variable sentimentScoreOf : string -> Q.

(** X19. Every alert of the map that [analyzeSocialMedia] would turn
    into a disaster has severity 4 or 5. *)
Theorem alert_disasters_have_severity_4_or_5 posts w :
  Forall (fun a =>
            alertCreatesDisaster a = true ->
            DisasterAlert.severity a == 4 \/ DisasterAlert.severity a == 5)
         (values (aggregate sentimentScoreOf posts w)).
Proof.
  apply Forall_forall. intros a H Cr.
  pose proof (aggregate_urgency_base sentimentScoreOf posts w) as F.
  rewrite Forall_forall in F. destruct (F a H) as [B U].
  destruct (aggregate_In_get sentimentScoreOf posts w a H)
    as [_ [_ _ (n & E & Fl) _]].
  assert (L : 4 <= DisasterAlert.severity a).
  { unfold alertCreatesDisaster in Cr. apply orb_true_iff in Cr.
    destruct Cr as [Cr|Cr].
    - destruct (DisasterAlert.urgencyLevel a); try discriminate.
      cbn in B. lra.
    - now apply Qle_bool_iff in Cr. }
  rewrite E in L |- *. change 4 with (inject_Z 4) in L.
  rewrite <- Zle_Qle in L.
  assert (C : n = 4%Z \/ n = 5%Z) by lia.
  destruct C as [-> | ->]; [left|right]; reflexivity.
Qed.

End AlertDisasters.

Section BoundsFacts.

Import MapBounds.
Local Open Scope Q_scope.








End BoundsFacts.

(* ================================================================== *)
(** * Order of the map, keywords and confidence *)
(* ================================================================== *)

Section OrderFacts.

Import SocialMediaAnalyzer.
Local Open Scope Q_scope.

Variable sentimentScoreOf : string -> Q.

Lemma inList_In key keys : Js.inList key keys = true <-> In key keys.
Proof.
  unfold Js.inList. rewrite existsb_exists. split.
  - intros (k & I & E). apply String.eqb_eq in E. now subst k.
  - intros I. exists key. split; [exact I|apply String.eqb_refl].
Qed.

Lemma step_keys post alerts alerts' :
  Step sentimentScoreOf post alerts alerts' ->
  map fst alerts' = noteKey (map fst alerts) post.
Proof.
  intros S. unfold noteKey.
  destruct S as [Sig | t l c e Sig G | t l c id pop ts Sig G]; rewrite Sig.
  - reflexivity.
  - rewrite keys_update.
    assert (I : In (keyOf t l) (map fst alerts)).
    { apply get_In in G. change (keyOf t l) with (fst (keyOf t l, e)).
      now apply in_map. }
    apply inList_In in I. now rewrite I.
  - rewrite map_app. cbn [map fst]. apply get_None in G.
    destruct (Js.inList (keyOf t l) (map fst alerts)) eqn:I; [|reflexivity].
    apply inList_In in I. contradiction.
Qed.

Lemma steps_keys posts alerts alerts' :
  Steps sentimentScoreOf posts alerts alerts' ->
  map fst alerts' = fold_left noteKey posts (map fst alerts).
Proof.
  induction 1 as [alerts|post posts alerts alerts' alerts'' S1 _ IH];
    [reflexivity|].
  cbn [fold_left]. rewrite IH. now rewrite (step_keys _ _ _ S1).
Qed.

(** X21. The alerts stand in the map, and are listed by
    [Map.prototype.values], in the order in which their keys first occur
    among the disaster-related posts of the batch; each alert stands
    under the key of its own type and location. *)
Theorem map_order_is_first_occurrence posts w :
  map fst (aggregate sentimentScoreOf posts w) = keysInOrder posts
  /\ map (fun a => keyOf (DisasterAlert.disasterType a)
                         (DisasterAlert.location a))
         (values (aggregate sentimentScoreOf posts w))
     = keysInOrder posts.
Proof.
  assert (K : map fst (aggregate sentimentScoreOf posts w)
              = keysInOrder posts)
    by apply (steps_keys posts [] _ (aggregate_steps _ posts w)).
  split; [exact K|]. rewrite <- K. unfold values. rewrite map_map.
  apply map_ext_in. intros [k a] H. cbn [fst snd].
  destruct (aggregate_ok sentimentScoreOf posts w) as [_ OK].
  symmetry. apply (OK _ _ H).
Qed.

Lemma scanCategory_keywords text st entry :
  Forall (fun k => Js.includes text k = true) (snd st) ->
  Forall (fun k => Js.includes text k = true)
         (snd (scanCategory text st entry)).
Proof.
  destruct st as [[dt m] kws]. unfold scanCategory. cbn [snd].
  intros F. destruct (m <? _)%nat; [|exact F]. cbn [snd].
  apply Forall_app. split; [exact F|].
  apply Forall_forall. intros k H. unfold matchesIn in H.
  now apply filter_In in H.
Qed.

Lemma scanCategory_from_table text table st entry :
  In entry table ->
  Forall (fun k => exists e, In e table /\ In k (snd e)) (snd st) ->
  Forall (fun k => exists e, In e table /\ In k (snd e))
         (snd (scanCategory text st entry)).
Proof.
  destruct st as [[dt m] kws]. unfold scanCategory. cbn [snd].
  intros I F. destruct (m <? _)%nat; [|exact F]. cbn [snd].
  apply Forall_app. split; [exact F|].
  apply Forall_forall. intros k H. unfold matchesIn in H.
  apply filter_In in H. exists entry. now split.
Qed.

Lemma fold_keywords text (P : string -> Prop) table :
  (forall st entry,
      In entry table -> Forall P (snd st) ->
      Forall P (snd (scanCategory text st entry))) ->
  forall todo st,
    incl todo table -> Forall P (snd st) ->
    Forall P (snd (fold_left (scanCategory text) todo st)).
Proof.
  intros Keep todo. induction todo as [|entry todo IH]; intros st I F.
  - exact F.
  - cbn [fold_left]. apply IH; [intros e H; apply I; now right|].
    apply Keep; [apply I; now left|exact F].
Qed.

(** X22. Every keyword [analyzePost] reports for a post is a keyword of
    the table that occurs in the lowercased text of the post. *)
Theorem reported_keywords_occur_in_the_text post w :
  Forall (fun k =>
            Js.includes (Js.toLowerCase (SocialMediaPost.text post)) k = true
            /\ exists e, In e disasterKeywords /\ In k (snd e))
         (PostAnalysis.keywords (fst (analyzePost sentimentScoreOf post w))).
Proof.
  rewrite analyzePost_eq. cbn [fst]. unfold analysisWith.
  cbn [PostAnalysis.keywords]. unfold detectType.
  set (text := Js.toLowerCase (SocialMediaPost.text post)).
  apply Forall_and.
  - apply (fold_keywords text _ disasterKeywords); auto using incl_refl.
    intros st entry _. apply scanCategory_keywords.
  - apply (fold_keywords text _ disasterKeywords); auto using incl_refl.
    intros st entry. apply scanCategory_from_table.
Qed.

Lemma Qabs_of_negative s : s < 0 -> Qabs s == - s.
Proof. intros H. apply Qabs_neg. lra. Qed.

(** X23. The confidence of a text signal never drops when the number of
    keyword matches or of urgency hits grows, nor when the sentiment score
    gets lower. *)
Theorem confidence_is_monotone km km' uc uc' s s' tok :
  (km <= km')%nat -> (uc <= uc')%nat -> s' <= s ->
  calculateConfidence km uc s tok <= calculateConfidence km' uc' s' tok.
Proof.
  intros K U S. unfold calculateConfidence.
  apply ofNat_le in K. apply ofNat_le in U.
  pose proof (ofNat_nonneg km). pose proof (ofNat_nonneg uc).
  pose proof (Qabs_nonneg s). pose proof (Qabs_nonneg s').
  destruct (ltb_spec s 0) as [N|N], (ltb_spec s' 0) as [N'|N'];
    try pose proof (Qabs_of_negative s N);
    try pose proof (Qabs_of_negative s' N');
    destruct ((10 <=? tok)%nat && (tok <=? 100)%nat);
    qminmax; lra.
Qed.

End OrderFacts.

(* ================================================================== *)
(** * The training data of the resource model *)
(* ================================================================== *)

Section TrainingFacts.

Import ResourceAllocationModel.
Local Open Scope string_scope.
Local Open Scope Q_scope.

Variable log10 : Q -> Q.











(** X25. The type feature of [normalizeInput] is a number exactly for
    the six keys of [disasterTypeMap]; of the seven types an alert can
    have, it is a number for flood, earthquake, hurricane and tsunami and
    not a number for fire, landslide and cyclone. *)
Theorem type_feature_is_defined_for_the_keys_only :
  (forall type,
      typeFeature type <> None <-> In type (map fst disasterTypeMap))
  /\ (forall d : DisasterType,
         typeFeature (typeName d) = None
         <-> d = fire \/ d = landslide \/ d = cyclone).
Proof.
  split.
  - intros type. unfold typeFeature.
    destruct (find _ disasterTypeMap) as [[k code]|] eqn:F.
    + apply find_some in F. destruct F as [I E]. cbn [fst] in E.
      apply String.eqb_eq in E. subst k. split; [intros _|discriminate].
      change type with (fst (type, code)). now apply in_map.
    + split; [intros N; now contradiction N|]. intros I.
      apply in_map_iff in I. destruct I as ([k code] & <- & I).
      pose proof (find_none _ _ F _ I) as N. cbn [fst] in N.
      now rewrite String.eqb_refl in N.
  - intros d. destruct d; cbn; split; intros H;
      try discriminate; try reflexivity; auto;
      destruct H as [H|[H|H]]; discriminate.
Qed.

End TrainingFacts.

(* ================================================================== *)
(** * The further theorems at work on sample inputs *)
(* ================================================================== *)

Section MoreSamples.

Import SocialMediaAnalyzer.
Local Open Scope string_scope.
Local Open Scope list_scope.
Local Open Scope Q_scope.

Lemma constantWorld_unitDraws : unitDraws (constantWorld 0.25).
Proof. intros n. split; vm_compute; (discriminate || reflexivity). Defined.

(** Ten reports of sentiment -20 keep the running score at -20. *)
Lemma running_sentiment_stays_within_bounds_witness :
  (forall post,
      In post tenFloodPosts -> -20 <= sentimentOf gloomy post <= -20)
  /\ Forall (fun a => -20 <= DisasterAlert.sentimentScore a <= -20)
            (values (aggregate gloomy tenFloodPosts (constantWorld 0.25))).
Proof.
  assert (H : forall post,
             In post tenFloodPosts -> -20 <= sentimentOf gloomy post <= -20)
    by (intros post _; split; vm_compute; discriminate).
  split; [exact H|].
  apply (running_sentiment_stays_within_bounds
           gloomy tenFloodPosts (constantWorld 0.25) (-20) (-20) H).
Defined.

(** Nine more reports raise the severity of the flood in Pune from 2 to
    5. *)
Lemma severity_never_decreases_witness :
  exists a,
    get (keyOf flood "Pune")
        (aggregate gloomy [postOf "flood" (Some "Pune")] (constantWorld 0.25))
    = Some a
    /\ exists a',
         get (keyOf flood "Pune")
             (aggregate gloomy
                ([postOf "flood" (Some "Pune")]
                 ++ repeat (postOf "flood" (Some "Pune")) 9)
                (constantWorld 0.25))
         = Some a'
         /\ DisasterAlert.severity a <= DisasterAlert.severity a'
         /\ DisasterAlert.severity a' <= 5
         /\ (DisasterAlert.reportCount a <= DisasterAlert.reportCount a')%nat.
Proof.
  eexists. split; [vm_compute; reflexivity|].
  apply (severity_never_decreases gloomy
           [postOf "flood" (Some "Pune")]
           (repeat (postOf "flood" (Some "Pune")) 9)
           (constantWorld 0.25) flood "Pune").
  vm_compute. reflexivity.
Defined.

(** A post about flooding in mumbai, without a location field. *)
Lemma city_in_text_fixes_the_coordinates_witness :
  SocialMediaPost.location (postOf "Flooding in mumbai" None) = None
  /\ existsb (Js.includes
                (Js.toLowerCase
                   (SocialMediaPost.text (postOf "Flooding in mumbai" None))))
             (map fst indianCities) = true
  /\ exists city lat lng,
       In (city, (lat, lng)) indianCities
       /\ PostAnalysis.location
            (fst (analyzePost gloomy (postOf "Flooding in mumbai" None)
                              (constantWorld 0.25))) = Js.capitalize city
       /\ PostAnalysis.coordinates
            (fst (analyzePost gloomy (postOf "Flooding in mumbai" None)
                              (constantWorld 0.25))) = LatLng lat lng.
Proof.
  split; [reflexivity|]. split; [vm_compute; reflexivity|].
  destruct (city_in_text_fixes_the_coordinates
              gloomy (postOf "Flooding in mumbai" None) (constantWorld 0.25)
              eq_refl ltac:(vm_compute; reflexivity))
    as (before & city & lat & lng & after & E & _ & _ & L & C & _).
  exists city, lat, lng. split; [rewrite E; apply in_elt|].
  split; [exact L|exact C].
Defined.

(** The population estimated for Mumbai and for Pune under draws of
    0.25. *)
Lemma affected_population_is_within_range_witness :
  unitDraws (constantWorld 0.25)
  /\ populationEstimate "Mumbai"
       (fst (estimateAffectedPopulation "Mumbai" (constantWorld 0.25)))
  /\ populationEstimate "Pune"
       (fst (estimateAffectedPopulation "Pune" (constantWorld 0.25))).
Proof.
  split; [exact constantWorld_unitDraws|].
  destruct (affected_population_is_within_range
              gloomy (constantWorld 0.25) constantWorld_unitDraws)
    as [H _].
  split; apply H.
Defined.

(** The area of the flood of the blue image. *)
Lemma affected_area_range_witness :
  inUnit (SatelliteDetection.waterDetection
            (SatelliteImageAnalyzer.metrics 0.2 0.2 0.6))
  /\ 10 <= SatelliteImageAnalyzer.estimateAffectedArea
             (SatelliteImageAnalyzer.metrics 0.2 0.2 0.6)
             SatelliteDetection.flood <= 510.
Proof.
  assert (W : inUnit (SatelliteDetection.waterDetection
                        (SatelliteImageAnalyzer.metrics 0.2 0.2 0.6)))
    by (split; vm_compute; discriminate).
  split; [exact W|].
  apply (affected_area_range
           (SatelliteImageAnalyzer.metrics 0.2 0.2 0.6)
           SatelliteDetection.flood W).
  - split; vm_compute; discriminate.
  - split; vm_compute; discriminate.
Defined.

(** The means of a canvas of one blue pixel. *)
Lemma channel_means_are_within_unit_witness :
  let means := SatelliteImageAnalyzer.meanChannels [51; 51; 153; 255]%Z in
  inUnit (fst (fst means)) /\ inUnit (snd (fst means))
  /\ inUnit (snd means).
Proof.
  apply (channel_means_are_within_unit [51; 51; 153; 255]%Z 0).
  - reflexivity.
  - repeat constructor; vm_compute; discriminate.
Defined.


(** Five mock posts under draws of 0.25. *)
Lemma mock_posts_are_classified_as_labelled_witness :
  exists posts,
    fst (MockPosts.generateMockPosts MockPosts.showInt 5
           (constantWorld 0.25)) = Some posts
    /\ List.length posts = 5%nat
    /\ Forall MockPosts.fromTemplate posts.
Proof.
  apply (mock_posts_are_classified_as_labelled
           MockPosts.showInt 5 (constantWorld 0.25)
           constantWorld_unitDraws).
Defined.

(** The blue image of the flood scenario. *)
Lemma classified_images_have_high_indices_witness :
  inUnit 0.2 /\ inUnit 0.6
  /\ fst (SatelliteImageAnalyzer.classify 0.2 0.2 0.6)
     = SatelliteDetection.flood
  /\ 0.3 < SatelliteDetection.waterDetection
             (SatelliteImageAnalyzer.metrics 0.2 0.2 0.6)
  /\ 160 < SatelliteImageAnalyzer.estimateAffectedArea
             (SatelliteImageAnalyzer.metrics 0.2 0.2 0.6)
             SatelliteDetection.flood.
Proof.
  assert (A : inUnit 0.2) by (split; vm_compute; discriminate).
  assert (B : inUnit 0.6) by (split; vm_compute; discriminate).
  split; [exact A|]. split; [exact B|]. split; [reflexivity|].
  destruct (classified_images_have_high_indices 0.2 0.2 0.6 A A B)
    as (_ & F & _).
  apply F. reflexivity.
Defined.

(** Two keyword matches and three urgency hits against one and one. *)
Lemma confidence_is_monotone_witness :
  calculateConfidence 1 1 (-3) 12 <= calculateConfidence 2 3 (-6) 12.
Proof.
  apply (confidence_is_monotone 1 2 1 3 (-3) (-6) 12).
  - lia.
  - lia.
  - vm_compute. discriminate.
Defined.


End MoreSamples.
